(** * dq-break-records: the Flask server of [src/server/app.py]

    A shallow embedding of the request handlers of the data-quality API
    ([/api/datasets], [/api/datasets/parse], [/api/dashboard/health]) and of
    the pure computations they are built from: header splitting, the dynamic
    SELECT list, pagination arithmetic and the status CASE expression.

    Conventions.
    - A Python [str] is a [string]; every [ascii] stands for one code point
      below 256.
    - Python [int] is [Z]; list positions are [nat].
    - The database is an oracle ([Db]) answering each statement with rows or
      with an exception; handlers run in a small exception monad that logs
      every connection event. *)

From Stdlib Require Import ZArith QArith Qround Lia.
From Stdlib Require Import Strings.Ascii Strings.String Numbers.DecimalString.
From stdpp Require Import base decidable option list strings gmap.

#[local] Set Warnings "-clear-no-such-hyp".

Local Open Scope Z_scope.

(** ** Python string primitives *)

Module PyStr.

(** [str.isspace] on one code point below 256: TAB..CR, FS..US, SPACE,
    NEL (0x85) and NBSP (0xA0). *)
Definition isspace (c : ascii) : bool :=
  let n := N_of_ascii c in
  ((9 <=? n) && (n <=? 13) || (28 <=? n) && (n <=? 32)
   || (n =? 133) || (n =? 160))%N.

(** Truth value of a [str]: false exactly for the empty string. *)
Definition truthy (s : string) : bool :=
  match s with
  | EmptyString => false
  | String _ _ => true
  end.

Fixpoint lstrip (s : string) : string :=
  match s with
  | EmptyString => EmptyString
  | String c s' => if isspace c then lstrip s' else s
  end.

Fixpoint rstrip (s : string) : string :=
  match s with
  | EmptyString => EmptyString
  | String c s' =>
      match rstrip s' with
      | EmptyString => if isspace c then EmptyString else String c EmptyString
      | r => String c r
      end
  end.

(** [s.strip()] with no argument. *)
Definition strip (s : string) : string := rstrip (lstrip s).

(** [str(n)] for a non-negative [int]. *)
Definition str_of_nat (n : nat) : string :=
  NilEmpty.string_of_uint (Nat.to_uint n).

(** [str(n)] for any [int]. *)
Definition str_of_int (n : Z) : string :=
  NilEmpty.string_of_int (Z.to_int n).

(** [sep.join(parts)]. *)
Fixpoint join (sep : string) (parts : list string) : string :=
  match parts with
  | [] => ""
  | [p] => p
  | p :: rest => p +:+ sep +:+ join sep rest
  end.

(** Every character of [s] is white space. *)
Fixpoint all_space (s : string) : bool :=
  match s with
  | EmptyString => true
  | String c s' => isspace c && all_space s'
  end.

End PyStr.

(** ** PostgreSQL functions and three-valued logic used by the SQL text *)

Module Pg.

(** One scan of [string_to_array]: [skip] characters of a delimiter that
    was just recognised are still to be dropped; the head of the result is
    the field under construction. *)
Fixpoint split_go (delim : string) (skip : nat) (s : string) : list string :=
  match s with
  | EmptyString => [""]
  | String c s' =>
      match skip with
      | S k => split_go delim k s'
      | O =>
          if String.prefix delim s
          then "" :: split_go delim (String.length delim - 1) s'
          else match split_go delim 0 s' with
               | tok :: rest => String c tok :: rest
               | [] => [String c ""]
               end
      end
  end.

(** [string_to_array(s, delim)] for non-NULL arguments: an empty input
    gives the empty array, an empty delimiter gives the input as the only
    field, otherwise the input is cut at each occurrence of the delimiter,
    found from the left. *)
Definition string_to_array (s delim : string) : list string :=
  if decide (s = "") then []
  else if decide (delim = "") then [s]
  else split_go delim 0 s.

(** SQL truth values: [None] is NULL (unknown). *)
Definition sqlbool := option bool.

Definition sql_and (a b : sqlbool) : sqlbool :=
  match a, b with
  | Some false, _ | _, Some false => Some false
  | Some true, Some true => Some true
  | _, _ => None
  end.

Definition sql_or (a b : sqlbool) : sqlbool :=
  match a, b with
  | Some true, _ | _, Some true => Some true
  | Some false, Some false => Some false
  | _, _ => None
  end.

(** [x IS NULL] is never unknown. *)
Definition is_null {A} (a : option A) : sqlbool :=
  match a with
  | None => Some true
  | Some _ => Some false
  end.

(** A comparison is unknown as soon as one operand is NULL. *)
Definition sql_cmp {A B} (test : A -> B -> bool) (a : option A) (b : option B) : sqlbool :=
  match a, b with
  | Some x, Some y => Some (test x y)
  | _, _ => None
  end.

(** [length(text)]: the number of characters. *)
Definition sql_length (a : option string) : option Z :=
  match a with
  | Some s => Some (Z.of_nat (String.length s))
  | None => None
  end.

(** [CASE WHEN c1 THEN v1 ... END] without ELSE: the value of the first
    branch whose condition is true, NULL when there is none. *)
Fixpoint sql_case {A} (branches : list (sqlbool * A)) : option A :=
  match branches with
  | [] => None
  | (Some true, v) :: _ => Some v
  | _ :: rest => sql_case rest
  end.

End Pg.


(** ** Header Resolver and Dynamic Projection Builder ([parse_dataset]) *)

(** The delimiter of the stored [linkid] string. *)
Definition header_delimiter : string := "~|".

(** The [header] column of the header query:
    [string_to_array(linkid, '~|')], NULL for a NULL [linkid]. *)
Definition header_of_linkid (linkid : option string) : option (list string) :=
  (fun s => Pg.string_to_array s header_delimiter) <$> linkid.

(** [[h for h in headers if h.strip()]], the [columns] of the response. *)
Fixpoint resolved_columns (headers : list string) : list string :=
  match headers with
  | [] => []
  | h :: rest =>
      if PyStr.truthy (PyStr.strip h)
      then h :: resolved_columns rest
      else resolved_columns rest
  end.

(** The Header Resolver on a stored header string: the header query
    followed by the filter. *)
Definition resolve_headers (linkid : string) : list string :=
  resolved_columns (Pg.string_to_array linkid header_delimiter).

(** The f-string [f"d.value[{i+1}] AS {col.strip()}"]. *)
Definition column_expression (i : nat) (col : string) : string :=
  "d.value[" +:+ PyStr.str_of_nat (i + 1) +:+ "] AS " +:+ PyStr.strip col.

(** The comprehension over [enumerate(headers)], the counter starting at
    [i]. *)
Fixpoint column_expressions_from (i : nat) (headers : list string) : list string :=
  match headers with
  | [] => []
  | col :: rest =>
      if PyStr.truthy (PyStr.strip col)
      then column_expression i col :: column_expressions_from (S i) rest
      else column_expressions_from (S i) rest
  end.

Definition column_expressions (headers : list string) : list string :=
  column_expressions_from 0 headers.

Definition columns_sql (headers : list string) : string :=
  PyStr.join ", " (column_expressions headers).

(** The text of [parse_sql] around the spliced column list (layout white
    space of the source literal is collapsed). *)
Definition parse_sql_text (columns_sql : string) : string :=
  "WITH values AS ( SELECT dataset, run_id, rule_nm, string_to_array(link_id, '~|') AS value FROM rule_breaks WHERE dataset = %s AND run_id >= %s ORDER BY run_id DESC LIMIT %s OFFSET %s ) SELECT dataset, run_id, rule_nm, "
  +:+ columns_sql +:+ " FROM values d".

(** The header list as the specification words it: split on the delimiter
    and drop the empty tokens. Kept apart from [resolved_columns], which is
    what the code computes. *)
Definition spec_header_tokens (linkid : string) : list string :=
  filter (fun tok => tok ≠ "") (Pg.string_to_array linkid header_delimiter).

(** ** Pagination arithmetic ([parse_dataset]) *)

(** [ceil(a / b)] over the rationals, as the specification writes
    [totalPages]. *)
Definition ceil_div (a b : Z) : Z := Qceiling (inject_Z a / inject_Z b).

(** [max(1, min(1000, requested))]. *)
Definition effective_page_size (requested : Z) : Z := Z.max 1 (Z.min 1000 requested).

(** [max(1, requested)], used for [page] and for [days]. *)
Definition at_least_one (requested : Z) : Z := Z.max 1 requested.

(** [offset = (page - 1) * page_size]. *)
Definition page_offset (page page_size : Z) : Z := (page - 1) * page_size.

(** [(total_count + page_size - 1) // page_size]; [//] rounds towards
    minus infinity, as [Z.div] does. *)
Definition total_pages (total_count page_size : Z) : Z :=
  (total_count + page_size - 1) / page_size.

(** ** Status classification (CTE [f] of [get_dashboard_health]) *)

Inductive Status := PASSING | BREAKING | EXCEPTION.

(** The columns of [rule_output] the CASE expression reads; both are
    nullable. *)
Record RuleOutput := {
  score : option Z;
  exception : option string
}.

(** [a.score = 0 and (a.exception is null or a.exception = '')]. *)
Definition passing_condition (a : RuleOutput) : Pg.sqlbool :=
  Pg.sql_and (Pg.sql_cmp Z.eqb (score a) (Some 0))
    (Pg.sql_or (Pg.is_null (exception a))
       (Pg.sql_cmp String.eqb (exception a) (Some ""))).

(** [length(a.exception) > 1]. *)
Definition exception_condition (a : RuleOutput) : Pg.sqlbool :=
  Pg.sql_cmp Z.gtb (Pg.sql_length (exception a)) (Some 1).

(** [a.score > 0]. *)
Definition breaking_condition (a : RuleOutput) : Pg.sqlbool :=
  Pg.sql_cmp Z.gtb (score a) (Some 0).

(** [[
    CASE WHEN a.score = 0 and (a.exception is null or a.exception = '') then 'PASSING'
         WHEN length(a.exception) > 1 THEN 'EXCEPTION'
         WHEN a.score > 0 THEN 'BREAKING'
    END
    ]] *)
Definition pass_fail_exception (a : RuleOutput) : option Status :=
  Pg.sql_case
    [ (passing_condition a, PASSING);
      (exception_condition a, EXCEPTION);
      (breaking_condition a, BREAKING) ].

(** The three WHEN conditions in two-valued terms, for stating what the
    CASE expression yields. *)
Definition passing (a : RuleOutput) : Prop :=
  score a = Some 0 ∧ (exception a = None ∨ exception a = Some "").

Definition long_exception (a : RuleOutput) : Prop :=
  ∃ e, exception a = Some e ∧ (1 < String.length e)%nat.

Definition positive_score (a : RuleOutput) : Prop :=
  ∃ s, score a = Some s ∧ 0 < s.

(** ** Exceptions, JSON values and the handler monad *)

Inductive ExnClass :=
| ValueError
| TypeError
| OverflowError
| KeyError
| OtherError (name : string).

(** An exception: its class and the text of [str(e)]. *)
Record Exn := { exn_class : ExnClass; exn_message : string }.

Definition exn_type_name (e : Exn) : string :=
  match exn_class e with
  | ValueError => "ValueError"
  | TypeError => "TypeError"
  | OverflowError => "OverflowError"
  | KeyError => "KeyError"
  | OtherError name => name
  end.

(** What [jsonify] receives. [JDateTime] and [JSeconds] stand for an ISO
    time stamp and a duration, [JTraceback] for the text of
    [traceback.format_exc()]; none of them is interpreted further. *)
#[warnings="-register-all"]
Inductive Json :=
| JNull
| JInt (n : Z)
| JStr (s : string)
| JDateTime (microseconds : Z)
| JSeconds (microseconds : Z)
| JTraceback (e : Exn)
| JList (items : list Json)
| JObj (fields : list (string * Json)).

(** [key in body] and [body[key]] for a JSON object. *)
Fixpoint assoc_get (key : string) (fields : list (string * Json)) : option Json :=
  match fields with
  | [] => None
  | (k, v) :: rest => if String.eqb k key then Some v else assoc_get key rest
  end.

Definition json_get (key : string) (body : Json) : option Json :=
  match body with
  | JObj fields => assoc_get key fields
  | _ => None
  end.

Definition json_keys (body : Json) : list string :=
  match body with
  | JObj fields => fst <$> fields
  | _ => []
  end.

(** [df.to_dict('records')]: a data frame is kept as its list of records. *)
Definition Frame := list Json.

(** An HTTP response: status code and JSON body. *)
Definition Response : Type := Z * Json.

Definition Conn := nat.

(** The statements sent to the database, with their bound parameters (and,
    for the two f-string templates, the spliced text). *)
Inductive Stmt :=
| SelectOne
| DatasetsSql (date_threshold : Z)
| VerifyDatasetSql (dataset : string)
| CountBreaksSql (dataset : string) (date_threshold : Z)
| HeadersSql (dataset : string)
| ParseSql (columns_sql dataset : string) (date_threshold page_size offset : Z)
| VerifyHealthSql (days : Z)
| AggregateSql (query_name : string) (days : Z)
| SchemaSql (table_name : string).

Inductive Event :=
| Open (c : Conn)
| Exec (c : Conn) (q : Stmt)
| Close (c : Conn).

(** The database as the handlers see it: what each call answers, an
    exception ([inl]) or its rows. [db_connect] covers lines 45-63 of
    [get_db_connection] (reading the settings and [psycopg2.connect]). *)
Record Db := {
  db_connect : option Exn;
  db_select_one : option Exn;
  db_datasets : Z → Exn + Frame;
  db_opt_owl_count : string → Exn + Z;
  db_rule_breaks_count : string → Z → Exn + Z;
  db_header_rows : string → Exn + list (option (list string));
  db_parse_rows : string → string → Z → Z → Z → Exn + Frame;
  db_rule_output_count : Z → Exn + Z;
  db_aggregate : string → Z → Exn + Frame;
  db_elapsed : string → Z;
  db_schema_columns : string → Exn + list (string * Json * Json * Json)
}.

(** State threaded through a handler: the log of connection events and the
    handler's local variable [conn] (unbound until assigned). *)
Record St := { log : list Event; conn_local : option Conn }.

Definition M (A : Type) : Type := St → (Exn + A) * St.

Global Instance M_ret : MRet M := fun A a st => (inr a, st).

Global Instance M_bind : MBind M := fun A B f m st =>
  match m st with
  | (inr a, st') => f a st'
  | (inl e, st') => (inl e, st')
  end.

Definition raise {A} (e : Exn) : M A := fun st => (inl e, st).

Definition lift {A} (r : Exn + A) : M A := fun st => (r, st).

Definition emit (ev : Event) : M unit :=
  fun st => (inr tt, {| log := log st ++ [ev]; conn_local := conn_local st |}).

Definition is_open (ev : Event) : bool :=
  match ev with
  | Open _ => true
  | _ => false
  end.

(** The number of connections opened so far; the next one gets it as its
    handle. *)
Definition opened (st : St) : nat :=
  length (List.filter is_open (log st)).

Definition assign_conn (c : Conn) : M unit :=
  fun st => (inr tt, {| log := log st; conn_local := Some c |}).

Definition read_conn : M (option Conn) := fun st => (inr (conn_local st), st).

(** [try: body except Exception as e: handler(e)]. *)
Definition try_except {A} (body : M A) (handler : Exn → M A) : M A := fun st =>
  match body st with
  | (inl e, st') => handler e st'
  | r => r
  end.

(** [try: body finally: cleanup]: the cleanup runs on every exit of the
    body, and the body's outcome (value or exception) is kept. *)
Definition try_finally {A} (body : M A) (cleanup : M unit) : M A := fun st =>
  match body st with
  | (r, st') =>
      match cleanup st' with
      | (inr _, st'') => (r, st'')
      | (inl e, st'') => (inl e, st'')
      end
  end.

(** [cursor.execute(q)] / [pd.read_sql(q, conn)]: the statement is logged
    against the connection, then the database answers. *)
Definition exec {A} (c : Conn) (q : Stmt) (answer : Exn + A) : M A :=
  emit (Exec c q);; lift answer.

(** [conn.close()]. *)
Definition close (c : Conn) : M unit := emit (Close c).

(** Runs a handler from an empty log. Each handler catches every exception
    itself; the second case is Flask's own reply to an uncaught one. *)
Definition run (handler : M Response) : Response * list Event :=
  match handler {| log := []; conn_local := None |} with
  | (inr resp, st) => (resp, log st)
  | (inl _, st) => ((500, JNull), log st)
  end.

Definition status_of (r : Response * list Event) : Z := r.1.1.
Definition body_of (r : Response * list Event) : Json := r.1.2.
Definition trace_of (r : Response * list Event) : list Event := r.2.

(** The connection discipline on a log: after [Open c] every statement
    runs on [c] and [Close c] is the last event. *)
Fixpoint used_then_closed (c : Conn) (events : list Event) : bool :=
  match events with
  | [Close c'] => Nat.eqb c c'
  | Exec c' _ :: rest => Nat.eqb c c' && used_then_closed c rest
  | _ => false
  end.

(** A request either opens no connection at all or opens one, uses it for
    all its statements and closes it. *)
Definition one_connection (events : list Event) : bool :=
  match events with
  | [] => true
  | Open c :: rest => used_then_closed c rest
  | _ => false
  end.

(** [datetime.now() - timedelta(days=days)], times in microseconds since
    [datetime.min]. [timedelta] accepts at most 999999999 days, a
    [datetime] lies between years 1 and 9999. *)
Definition microseconds_per_day : Z := 86400000000.

Definition datetime_max : Z := 3652059 * microseconds_per_day - 1.

Definition date_threshold_of (now days : Z) : Exn + Z :=
  if Z.abs days <=? 999999999 then
    let t := now - days * microseconds_per_day in
    if (0 <=? t) && (t <=? datetime_max) then inr t
    else inl {| exn_class := OverflowError; exn_message := "date value out of range" |}
  else inl {| exn_class := OverflowError;
              exn_message := "days=" +:+ PyStr.str_of_int days
                             +:+ "; must have magnitude <= 999999999" |}.

(** ** The request handlers *)

Section Server.

(** [int(s)] on a query-string value: the integer, or the message of the
    [ValueError] it raises. *)
Variable py_int : string → string + Z.

(** [datetime.now()] of the request. *)
Variable now : Z.

Variable db : Db.

(** [request.args]. *)
Implicit Types args : gmap string string.

(** [int(request.args.get(name, default))], as a value. *)
Definition int_of_arg args (name : string) (default : Z) : string + Z :=
  match args !! name with
  | Some s => py_int s
  | None => inr default
  end.

Definition int_arg args (name : string) (default : Z) : M Z :=
  match int_of_arg args name default with
  | inr n => mret n
  | inl msg => raise {| exn_class := ValueError; exn_message := msg |}
  end.

(** Lines 155-160: [page], [page_size] and [days], or the message of the
    first [ValueError]. *)
Definition pagination_params args : string + (Z * Z * Z) :=
  match int_of_arg args "page" 1 with
  | inl msg => inl msg
  | inr p =>
      match int_of_arg args "pageSize" 100 with
      | inl msg => inl msg
      | inr s =>
          match int_of_arg args "days" 1 with
          | inl msg => inl msg
          | inr d => inr (at_least_one p, effective_page_size s, at_least_one d)
          end
      end
  end.

Definition get_db_connection : M Conn := fun st =>
  match db_connect db with
  | Some e => raise e st
  | None =>
      let connection := opened st in
      (emit (Open connection);;
       exec connection SelectOne
         (match db_select_one db with Some e => inl e | None => inr tt end);;
       mret connection) st
  end.

(** The error envelope of [parse_dataset] and [get_dashboard_health]. *)
Definition error_envelope (e : Exn) : Response :=
  (500, JObj [("error", JStr (exn_message e));
              ("type", JStr (exn_type_name e));
              ("details", JTraceback e)]).

Definition error_only (e : Exn) : Response :=
  (500, JObj [("error", JStr (exn_message e))]).

(** *** [GET /api/datasets] *)

Definition get_datasets args : M Response :=
  try_except
    (days ← int_arg args "days" 1;
     date_threshold ← lift (date_threshold_of now days);
     conn ← get_db_connection;
     assign_conn conn;;
     df ← exec conn (DatasetsSql date_threshold) (db_datasets db date_threshold);
     close conn;;
     mret (200, JList df))
    (fun e => mret (error_only e)).

(** *** [GET /api/datasets/parse] *)

Definition list_query : string :=
  "WITH li AS ( SELECT * FROM opt_owl WHERE linkid is not null ), ro AS ( SELECT * FROM rule_output ), lr AS ( SELECT max(run_id) as run_id, dataset FROM rule_output GROUP BY dataset ), j AS ( SELECT DISTINCT ro.dataset, ro.run_id, li.linkid FROM li INNER JOIN ro ON li.dataset = ro.dataset INNER JOIN lr ON lr.dataset = ro.dataset AND lr.run_id = ro.run_id WHERE ro.score > 0 AND ro.dataset = %s AND ro.run_id >= %s ORDER BY ro.dataset, ro.run_id ) SELECT * FROM j".

(** The two 404 answers of the header lookup. *)
Definition dataset_not_found (dataset : string) : Response :=
  (404, JObj [("error", JStr ("Dataset '" +:+ dataset +:+ "' not found"))]).

Definition no_headers_found (dataset : string) : Response :=
  (404, JObj [("error",
          JStr ("No headers found for dataset '" +:+ dataset +:+ "'"))]).

(** Lines 207-295, once the header value of the first row is at hand.
    Iterating over a NULL header raises [TypeError]. *)
Definition parse_rows (conn : Conn) (dataset : string)
    (page page_size date_threshold offset total_count : Z)
    (header : option (list string)) : M Response :=
  match header with
  | None =>
      raise {| exn_class := TypeError;
               exn_message := "'NoneType' object is not iterable" |}
  | Some headers =>
      let columns_sql := columns_sql headers in
      df ← exec conn (ParseSql columns_sql dataset date_threshold page_size offset)
             (db_parse_rows db columns_sql dataset date_threshold page_size offset);
      mret (200,
            JObj [("columns", JList (JStr <$> resolved_columns headers));
                  ("rows", JList df);
                  ("pagination",
                    JObj [("page", JInt page);
                          ("pageSize", JInt page_size);
                          ("totalCount", JInt total_count);
                          ("totalPages", JInt (total_pages total_count page_size))]);
                  ("listQuery", JStr list_query);
                  ("parseQuery", JStr (parse_sql_text columns_sql));
                  ("parameters",
                    JObj [("dataset", JStr dataset);
                          ("date_threshold", JDateTime date_threshold);
                          ("page_size", JInt page_size);
                          ("offset", JInt offset)])])
  end.

(** Lines 171-295: everything done with the open connection. *)
Definition parse_with_conn (conn : Conn) (dataset : string)
    (page page_size date_threshold offset : Z) : M Response :=
  found ← exec conn (VerifyDatasetSql dataset) (db_opt_owl_count db dataset);
  if found =? 0 then mret (dataset_not_found dataset)
  else
    total_count ← exec conn (CountBreaksSql dataset date_threshold)
                    (db_rule_breaks_count db dataset date_threshold);
    headers_df ← exec conn (HeadersSql dataset) (db_header_rows db dataset);
    match headers_df with
    | [] => mret (no_headers_found dataset)
    | header :: _ =>
        parse_rows conn dataset page page_size date_threshold offset total_count header
    end.

Definition parse_dataset args : M Response :=
  try_except
    (match args !! "dataset" with
     | None | Some "" =>
         mret (400, JObj [("error", JStr "Dataset parameter is required")])
     | Some dataset =>
         match pagination_params args with
         | inl msg =>
             mret (400, JObj [("error",
                     JStr ("Invalid pagination parameters: " +:+ msg))])
         | inr (page, page_size, days) =>
             date_threshold ← lift (date_threshold_of now days);
             let offset := page_offset page page_size in
             conn ← get_db_connection;
             assign_conn conn;;
             try_finally
               (parse_with_conn conn dataset page page_size date_threshold offset)
               (close conn)
         end
     end)
    (fun e => mret (error_envelope e)).

(** *** [GET /api/dashboard/health] *)

(** The keys of the [queries] dictionary, in insertion order. *)
Definition query_names : list string :=
  ["globalHealth"; "timeSeries"; "dimensions"; "businessUnits"].

Definition execute_query (conn : Conn) (days : Z) (query_name : string)
  : M (string * Frame * Z) :=
  result ← exec conn (AggregateSql query_name days) (db_aggregate db query_name days);
  mret (query_name, result, db_elapsed db query_name).

(** [executor.submit(task)]: the task runs to its end and its outcome,
    value or exception, is kept in the future. The pool runs the tasks
    concurrently; the log lists them in submission order. *)
Definition submit {A} (task : M A) : M (Exn + A) := fun st =>
  match task st with
  | (r, st') => (inr r, st')
  end.

Fixpoint submit_all (conn : Conn) (days : Z) (names : list string)
  : M (list (string * (Exn + (string * Frame * Z)))) :=
  match names with
  | [] => mret []
  | query_name :: rest =>
      future ← submit (execute_query conn days query_name);
      futures ← submit_all conn days rest;
      mret ((query_name, future) :: futures)
  end.

(** The collection loop: [future.result()] re-raises the exception of a
    failed task. *)
Fixpoint collect (futures : list (string * (Exn + (string * Frame * Z))))
    (results : gmap string Frame) (query_timings : gmap string Z)
  : M (gmap string Frame * gmap string Z) :=
  match futures with
  | [] => mret (results, query_timings)
  | (_, future) :: rest =>
      '(query_name, result, timing) ← lift future;
      collect rest (<[query_name := result]> results)
                   (<[query_name := timing]> query_timings)
  end.

(** [results[key]]. *)
Definition getitem (results : gmap string Frame) (key : string) : M Frame :=
  match results !! key with
  | Some df => mret df
  | None => raise {| exn_class := KeyError;
                     exn_message := "'" +:+ key +:+ "'" |}
  end.

Definition no_data (days : Z) : Response :=
  (404, JObj [("error", JStr ("No data found for the selected time range (last "
                              +:+ PyStr.str_of_int days +:+ " days)"));
              ("globalHealth", JList []);
              ("timeSeries", JList []);
              ("dimensions", JList []);
              ("businessUnits", JList []);
              ("queryTimings", JObj [])]).

Definition timings_json (query_timings : gmap string Z) : Json :=
  JObj ((fun kv => (kv.1, JSeconds kv.2)) <$> map_to_list query_timings).

Definition get_dashboard_health args : M Response :=
  try_finally
    (try_except
       (days ← int_arg args "days" 2;
        conn ← get_db_connection;
        assign_conn conn;;
        count ← exec conn (VerifyHealthSql days) (db_rule_output_count db days);
        if count =? 0 then mret (no_data days)
        else
          futures ← submit_all conn days query_names;
          '(results, query_timings) ← collect futures ∅ ∅;
          _ ← getitem results "timeSeries";
          global_health ← getitem results "globalHealth";
          time_series ← getitem results "timeSeries";
          dimensions ← getitem results "dimensions";
          business_units ← getitem results "businessUnits";
          mret (200,
                JObj [("globalHealth", JList global_health);
                      ("timeSeries", JList time_series);
                      ("dimensions", JList dimensions);
                      ("businessUnits", JList business_units);
                      ("queryTimings", timings_json query_timings)]))
       (fun e => mret (error_envelope e)))
    (conn ← read_conn;
     match conn with
     | Some c => close c
     | None => mret tt
     end).

(** *** [GET /api/schema] *)

Definition schema_json (columns : list (string * Json * Json * Json)) : Json :=
  JList ((fun col => JObj [("column", col.1.1.2); ("type", col.1.2);
                           ("max_length", col.2)]) <$> columns).

Definition get_schema : M Response :=
  try_finally
    (try_except
       (conn ← get_db_connection;
        assign_conn conn;;
        dataset_scan ← exec conn (SchemaSql "dataset_scan")
                         (db_schema_columns db "dataset_scan");
        dataset_schema ← exec conn (SchemaSql "dataset_schema")
                           (db_schema_columns db "dataset_schema");
        owl_catalog ← exec conn (SchemaSql "owl_catalog")
                        (db_schema_columns db "owl_catalog");
        mret (200, JObj [("dataset_scan", schema_json dataset_scan);
                         ("dataset_schema", schema_json dataset_schema);
                         ("owl_catalog", schema_json owl_catalog)]))
       (fun e => mret (error_only e)))
    (conn ← read_conn;
     match conn with
     | Some c => close c
     | None => mret tt
     end).

End Server.

(** ** A database backed by an [opt_owl] table, and sample inputs *)

Record OptOwlRow := { row_dataset : string; row_linkid : option string }.

(** [SELECT COUNT( * ) FROM opt_owl WHERE dataset = %s]. *)
Definition opt_owl_count (opt_owl : list OptOwlRow) (dataset : string) : Z :=
  Z.of_nat (length (filter (fun r => row_dataset r = dataset) opt_owl)).

(** [SELECT string_to_array(linkid, '~|') AS header FROM opt_owl
    WHERE dataset = %s LIMIT 1]. *)
Definition opt_owl_header_rows (opt_owl : list OptOwlRow) (dataset : string)
  : list (option (list string)) :=
  take 1 ((fun r => header_of_linkid (row_linkid r))
            <$> filter (fun r => row_dataset r = dataset) opt_owl).

(** The database [db] with the two [opt_owl] statements answered from the
    table. *)
Definition with_opt_owl (opt_owl : list OptOwlRow) (db : Db) : Db :=
  {| db_connect := db_connect db;
     db_select_one := db_select_one db;
     db_datasets := db_datasets db;
     db_opt_owl_count := fun dataset => inr (opt_owl_count opt_owl dataset);
     db_rule_breaks_count := db_rule_breaks_count db;
     db_header_rows := fun dataset => inr (opt_owl_header_rows opt_owl dataset);
     db_parse_rows := db_parse_rows db;
     db_rule_output_count := db_rule_output_count db;
     db_aggregate := db_aggregate db;
     db_elapsed := db_elapsed db;
     db_schema_columns := db_schema_columns db |}.

(** A database that accepts the connection and answers every statement
    with no rows; [facts] is the number of [rule_output] rows in any
    window. *)
Definition quiet_db (facts : Z) : Db :=
  {| db_connect := None;
     db_select_one := None;
     db_datasets := fun _ => inr [];
     db_opt_owl_count := fun _ => inr 0;
     db_rule_breaks_count := fun _ _ => inr 0;
     db_header_rows := fun _ => inr [];
     db_parse_rows := fun _ _ _ _ _ => inr [];
     db_rule_output_count := fun _ => inr facts;
     db_aggregate := fun _ _ => inr [];
     db_elapsed := fun _ => 0;
     db_schema_columns := fun _ => inr [] |}.

Definition query_failed : Exn :=
  {| exn_class := OtherError "DatabaseError";
     exn_message := "Execution failed on sql" |}.

Definition syntax_error : Exn :=
  {| exn_class := OtherError "DatabaseError";
     exn_message := "syntax error at or near FROM" |}.

(** [quiet_db] rejecting the parse query whose column list is empty, which
    reads [SELECT dataset, run_id, rule_nm, FROM values d]. *)
Definition strict_db : Db :=
  {| db_connect := None;
     db_select_one := None;
     db_datasets := fun _ => inr [];
     db_opt_owl_count := fun _ => inr 0;
     db_rule_breaks_count := fun _ _ => inr 0;
     db_header_rows := fun _ => inr [];
     db_parse_rows := fun columns_sql _ _ _ _ =>
       if decide (columns_sql = "") then inl syntax_error else inr [];
     db_rule_output_count := fun _ => inr 0;
     db_aggregate := fun _ _ => inr [];
     db_elapsed := fun _ => 0;
     db_schema_columns := fun _ => inr [] |}.

(** [quiet_db] with one of the aggregate queries failing. *)
Definition failing_aggregate_db (failing : string) : Db :=
  {| db_connect := None;
     db_select_one := None;
     db_datasets := fun _ => inr [];
     db_opt_owl_count := fun _ => inr 0;
     db_rule_breaks_count := fun _ _ => inr 0;
     db_header_rows := fun _ => inr [];
     db_parse_rows := fun _ _ _ _ _ => inr [];
     db_rule_output_count := fun _ => inr 7;
     db_aggregate := fun name _ => if String.eqb name failing then inl query_failed else inr [];
     db_elapsed := fun _ => 0;
     db_schema_columns := fun _ => inr [] |}.

(** [quiet_db] with the dataset listing query failing. *)
Definition failing_datasets_db : Db :=
  {| db_connect := None;
     db_select_one := None;
     db_datasets := fun _ => inl query_failed;
     db_opt_owl_count := fun _ => inr 0;
     db_rule_breaks_count := fun _ _ => inr 0;
     db_header_rows := fun _ => inr [];
     db_parse_rows := fun _ _ _ _ _ => inr [];
     db_rule_output_count := fun _ => inr 0;
     db_aggregate := fun _ _ => inr [];
     db_elapsed := fun _ => 0;
     db_schema_columns := fun _ => inr [] |}.

(** [int] on plain decimal numerals (an optional minus sign and digits),
    where it agrees with Python's; used for the sample requests. *)
Fixpoint digits_value (acc : Z) (s : string) : option Z :=
  match s with
  | EmptyString => Some acc
  | String c s' =>
      match Ascii.is_nat c with
      | Some d => digits_value (10 * acc + Z.of_nat d) s'
      | None => None
      end
  end.

Definition decimal_int (s : string) : string + Z :=
  let invalid := inl ("invalid literal for int() with base 10: '" +:+ s +:+ "'") in
  match s with
  | EmptyString => invalid
  | String "-" EmptyString => invalid
  | String "-" s' =>
      match digits_value 0 s' with
      | Some n => inr (- n)
      | None => invalid
      end
  | _ =>
      match digits_value 0 s with
      | Some n => inr n
      | None => invalid
      end
  end.

(** A request time inside the range of [datetime]: 2026-01-01 00:00. *)
Definition sample_now : Z := 739617 * microseconds_per_day.

(** ** Further sample inputs *)

(** The exception of the first failed outcome of a list, in list order. *)
Fixpoint first_exception {A} (outcomes : list (Exn + A)) : option Exn :=
  match outcomes with
  | [] => None
  | inl e :: _ => Some e
  | inr _ :: rest => first_exception rest
  end.

Definition connection_lost : Exn :=
  {| exn_class := OtherError "OperationalError";
     exn_message := "server closed the connection unexpectedly" |}.

(** [quiet_db] accepting the connection and failing its [SELECT 1] test. *)
Definition failing_test_db : Db :=
  {| db_connect := None;
     db_select_one := Some connection_lost;
     db_datasets := fun _ => inr [];
     db_opt_owl_count := fun _ => inr 0;
     db_rule_breaks_count := fun _ _ => inr 0;
     db_header_rows := fun _ => inr [];
     db_parse_rows := fun _ _ _ _ _ => inr [];
     db_rule_output_count := fun _ => inr 0;
     db_aggregate := fun _ _ => inr [];
     db_elapsed := fun _ => 0;
     db_schema_columns := fun _ => inr [] |}.

(** [quiet_db] with the column query of one table failing. *)
Definition failing_schema_db (failing : string) : Db :=
  {| db_connect := None;
     db_select_one := None;
     db_datasets := fun _ => inr [];
     db_opt_owl_count := fun _ => inr 0;
     db_rule_breaks_count := fun _ _ => inr 0;
     db_header_rows := fun _ => inr [];
     db_parse_rows := fun _ _ _ _ _ => inr [];
     db_rule_output_count := fun _ => inr 0;
     db_aggregate := fun _ _ => inr [];
     db_elapsed := fun _ => 0;
     db_schema_columns := fun table =>
       if String.eqb table failing then inl query_failed else inr [] |}.

(** * Properties *)

(** ** Strings *)

Module PyStrFacts.
Import PyStr.

Lemma truthy_true (s : string) : truthy s = true ↔ s ≠ "".
Proof. destruct s; simpl; split; intros; congruence. Qed.

Lemma truthy_false (s : string) : truthy s = false ↔ s = "".
Proof. destruct s; simpl; split; intros; congruence. Qed.

Lemma app_nil_l (s : string) : "" +:+ s = s.
Proof. reflexivity. Qed.

Lemma app_cons c (a b : string) : String c a +:+ b = String c (a +:+ b).
Proof. reflexivity. Qed.

Lemma app_nil_r (s : string) : s +:+ "" = s.
Proof. induction s; rewrite ?app_nil_l, ?app_cons; congruence. Qed.

Lemma app_assoc (a b c : string) : (a +:+ b) +:+ c = a +:+ b +:+ c.
Proof. induction a; rewrite ?app_nil_l, ?app_cons; congruence. Qed.

Lemma length_app (a b : string) :
  String.length (a +:+ b) = (String.length a + String.length b)%nat.
Proof. induction a; rewrite ?app_nil_l, ?app_cons; simpl; congruence. Qed.

Lemma all_space_app (a b : string) :
  all_space (a +:+ b) = all_space a && all_space b.
Proof.
  induction a; rewrite ?app_nil_l, ?app_cons; simpl; [done|].
  rewrite IHa. by destruct (isspace _).
Qed.

(** [lstrip] removes a prefix of white space and stops at the first
    other character. *)
Lemma lstrip_spec (s : string) :
  ∃ l, s = l +:+ lstrip s ∧ all_space l = true
       ∧ ∀ c t, lstrip s = String c t → isspace c = false.
Proof.
  induction s as [|c s (l & Hs & Hl & Hhead)]; simpl.
  - exists "". by repeat split.
  - destruct (isspace c) eqn:Hc.
    + exists (String c l). rewrite app_cons. simpl. rewrite Hc, Hl.
      repeat split; [congruence|done].
    + exists "". repeat split. intros c' t [= <- _]. done.
Qed.

(** [rstrip] removes a suffix of white space and stops at the last other
    character. *)
Lemma rstrip_spec (s : string) :
  ∃ r, s = rstrip s +:+ r ∧ all_space r = true
       ∧ ∀ t c, rstrip s = t +:+ String c "" → isspace c = false.
Proof.
  induction s as [|c s (r & Hs & Hr & Hlast)]; simpl.
  - exists "". repeat split. intros [|??] ?; discriminate.
  - destruct (rstrip s) as [|c' s'] eqn:Hrs.
    + destruct (isspace c) eqn:Hc.
      * exists (String c r). rewrite app_nil_l in *. simpl. rewrite Hc, Hr.
        repeat split; [congruence|]. intros [|??] ?; discriminate.
      * exists r. rewrite app_nil_l in Hs. rewrite app_cons, app_nil_l.
        repeat split; [congruence|done|].
        intros [|? [|??]] c0; rewrite ?app_cons, ?app_nil_l; intros [= ]; congruence.
    + exists r. rewrite app_cons. repeat split; [congruence|done|].
      intros [|c1 t] c0; rewrite ?app_cons, ?app_nil_l.
      * intros [= ].
      * intros [= <- Ht]. eauto.
Qed.

Lemma rstrip_head (s : string) c t :
  rstrip s = String c t → ∃ t', s = String c t'.
Proof.
  destruct s as [|c0 s]; simpl; [discriminate|].
  destruct (rstrip s); [destruct (isspace c0)|]; intros [= ]; subst; eauto.
Qed.

(** [strip] is trimming: the argument is its result between two runs of
    white space, and the result neither starts nor ends with white
    space. *)
Lemma strip_spec (s : string) :
  ∃ l r, s = l +:+ strip s +:+ r
         ∧ all_space l = true ∧ all_space r = true
         ∧ (∀ c t, strip s = String c t → isspace c = false)
         ∧ (∀ t c, strip s = t +:+ String c "" → isspace c = false).
Proof.
  unfold strip.
  destruct (lstrip_spec s) as (l & Hs & Hl & Hhead).
  destruct (rstrip_spec (lstrip s)) as (r & Hs' & Hr & Hlast).
  exists l, r. repeat split; [congruence|done|done| |done].
  intros c t Hc. apply rstrip_head in Hc as [t' Ht']. eauto.
Qed.

(** A token is blank after trimming exactly when it is all white
    space. *)
Lemma strip_empty_iff (s : string) : strip s = "" ↔ all_space s = true.
Proof.
  destruct (strip_spec s) as (l & r & Hs & Hl & Hr & Hhead & _). split.
  - intros Hempty. rewrite Hempty in Hs. rewrite Hs, app_nil_l.
    rewrite all_space_app, Hl, Hr. done.
  - intros Hall. destruct (strip s) as [|c t] eqn:E; [done|].
    rewrite Hs in Hall. rewrite all_space_app, app_cons in Hall. simpl in Hall.
    rewrite (Hhead c t eq_refl) in Hall. simpl in Hall.
    apply andb_true_iff in Hall as [_ ?]. done.
Qed.

End PyStrFacts.

Module PgFacts.
Import PyStr PyStrFacts Pg.

Lemma split_go_pending delim k c s :
  split_go delim (S k) (String c s) = split_go delim k s.
Proof. reflexivity. Qed.

Lemma split_go_scan delim c s :
  split_go delim 0 (String c s) =
  if String.prefix delim (String c s)
  then "" :: split_go delim (String.length delim - 1) s
  else match split_go delim 0 s with
       | tok :: rest => String c tok :: rest
       | [] => [String c ""]
       end.
Proof. reflexivity. Qed.

Lemma split_go_nonempty delim skip s : split_go delim skip s ≠ [].
Proof.
  revert skip. induction s as [|c s IH]; intros skip; [done|].
  destruct skip; [|apply IH]. rewrite split_go_scan.
  destruct (String.prefix delim (String c s)); [done|].
  destruct (split_go delim 0 s); done.
Qed.

Lemma join_cons sep p q rest :
  join sep (p :: q :: rest) = p +:+ sep +:+ join sep (q :: rest).
Proof. reflexivity. Qed.

Lemma join_cons_head sep c p rest :
  join sep (String c p :: rest) = String c (join sep (p :: rest)).
Proof. destruct rest; simpl; [done|]. by rewrite app_cons. Qed.

(** While [skip] characters of a recognised delimiter are pending, the
    scan only consumes them. *)
Lemma split_go_skip delim (pre s : string) :
  split_go delim (String.length pre) (pre +:+ s) = split_go delim 0 s.
Proof.
  induction pre as [|c pre IH]; rewrite ?app_nil_l, ?app_cons; [done|].
  simpl String.length. by rewrite split_go_pending.
Qed.

Lemma prefix_app (delim s : string) :
  String.prefix delim s = true → ∃ rest, s = delim +:+ rest.
Proof.
  revert s. induction delim as [|d delim IH]; intros s; simpl.
  - exists s. done.
  - destruct s as [|c s]; simpl; [done|].
    destruct (ascii_dec d c) as [->|]; [|done].
    intros [rest ->]%IH. exists rest. done.
Qed.

(** Joining the fields with the delimiter gives the scanned text back. *)
Lemma join_split_go delim (s : string) :
  delim ≠ "" → join delim (split_go delim 0 s) = s.
Proof.
  intros Hdelim.
  remember (String.length s) as n eqn:Hn. revert s Hn.
  induction n as [n IH] using lt_wf_ind. intros s ->.
  destruct s as [|c s]; [done|]. rewrite split_go_scan.
  destruct (String.prefix delim (String c s)) eqn:Hpre.
  - apply prefix_app in Hpre as [rest Hrest].
    destruct delim as [|d delim]; [done|].
    rewrite app_cons in Hrest. injection Hrest as -> ->.
    simpl. rewrite Nat.sub_0_r, split_go_skip.
    pose proof (split_go_nonempty (String d delim) 0 rest) as Hne.
    destruct (split_go (String d delim) 0 rest) as [|tok toks] eqn:Hsplit; [done|].
    rewrite app_nil_l, <- Hsplit.
    rewrite (IH (String.length rest)); [by rewrite app_cons| |done].
    simpl. rewrite length_app. lia.
  - pose proof (split_go_nonempty delim 0 s) as Hne.
    destruct (split_go delim 0 s) as [|tok toks] eqn:Hsplit; [done|].
    rewrite join_cons_head, <- Hsplit.
    rewrite (IH (String.length s)); [done| |done]. simpl. lia.
Qed.

Lemma join_string_to_array (s delim : string) :
  delim ≠ "" → join delim (string_to_array s delim) = s.
Proof.
  intros Hdelim. unfold string_to_array.
  destruct (decide (s = "")) as [->|]; [done|].
  destruct (decide (delim = "")); [done|]. by apply join_split_go.
Qed.

End PgFacts.

(** ** Header Resolver and Dynamic Projection Builder *)

Section Projection.
Import PyStr PyStrFacts.

(** A token survives when it is not blank after trimming. *)
Local Abbreviation nonblank := (fun col : string => strip col ≠ "").

Lemma resolved_columns_filter (headers : list string) :
  resolved_columns headers = filter nonblank headers.
Proof.
  induction headers as [|h rest IH]; [done|]. simpl.
  destruct (truthy (strip h)) eqn:Ht.
  - apply truthy_true in Ht. rewrite filter_cons_True by done. by f_equal.
  - apply truthy_false in Ht. rewrite filter_cons_False by (by intros []). done.
Qed.

Lemma column_expressions_from_length (j : nat) (headers : list string) :
  length (column_expressions_from j headers) = length (filter nonblank headers).
Proof.
  revert j. induction headers as [|h rest IH]; intros j; [done|]. simpl.
  destruct (truthy (strip h)) eqn:Ht.
  - apply truthy_true in Ht. rewrite filter_cons_True by done. simpl. by f_equal.
  - apply truthy_false in Ht. rewrite filter_cons_False by (by intros []). done.
Qed.

Lemma column_expressions_from_lookup (j : nat) (headers : list string) k e :
  column_expressions_from j headers !! k = Some e ↔
  ∃ i col, headers !! i = Some col ∧ strip col ≠ ""
           ∧ k = length (filter nonblank (take i headers))
           ∧ e = column_expression (j + i) col.
Proof.
  revert j k. induction headers as [|h rest IH]; intros j k.
  { split; [done|]. intros (i & col & Hi & _). by destruct i. }
  simpl. destruct (truthy (strip h)) eqn:Ht.
  - apply truthy_true in Ht. destruct k as [|k]; simpl.
    + split.
      * intros [= <-]. exists 0%nat, h. by rewrite Nat.add_0_r.
      * intros ([|i] & col & Hi & _ & Hk & ->); simpl in *.
        -- rewrite Nat.add_0_r. congruence.
        -- by rewrite filter_cons_True in Hk by done.
    + rewrite IH. split.
      * intros (i & col & Hi & Hcol & -> & ->). exists (S i), col.
        simpl. rewrite filter_cons_True by done. simpl.
        by rewrite Nat.add_succ_r.
      * intros ([|i] & col & Hi & Hcol & Hk & ->); simpl in *; [done|].
        rewrite filter_cons_True in Hk by done. simpl in Hk.
        exists i, col. rewrite Nat.add_succ_r. split_and!; [done|done|lia|done].
  - apply truthy_false in Ht. rewrite IH. split.
    + intros (i & col & Hi & Hcol & -> & ->). exists (S i), col.
      simpl. rewrite filter_cons_False by (by intros []).
      by rewrite Nat.add_succ_r.
    + intros ([|i] & col & Hi & Hcol & Hk & ->); simpl in *; [congruence|].
      rewrite filter_cons_False in Hk by (by intros []).
      exists i, col. by rewrite Nat.add_succ_r.
Qed.

(** C1. The projection builder emits one expression per token that is
    not blank after trimming. The expression at output position [k] comes
    from the token at the original position [i] that has exactly [k]
    non-blank tokens before it; it reads array element [i + 1] and names
    it by the trimmed token. Blank tokens contribute nothing, and trimming
    removes exactly the surrounding white space. *)
Theorem column_expressions_positional (headers : list string) :
  length (column_expressions headers) = length (filter nonblank headers)
  ∧ (∀ k e,
       column_expressions headers !! k = Some e ↔
       ∃ i col, headers !! i = Some col ∧ strip col ≠ ""
                ∧ k = length (filter nonblank (take i headers))
                ∧ e = "d.value[" +:+ str_of_nat (i + 1) +:+ "] AS " +:+ strip col)
  ∧ (∀ col, ∃ l r, col = l +:+ strip col +:+ r
                   ∧ all_space l = true ∧ all_space r = true
                   ∧ (∀ c t, strip col = String c t → isspace c = false)
                   ∧ (∀ t c, strip col = t +:+ String c "" → isspace c = false)).
Proof.
  split_and!.
  - apply column_expressions_from_length.
  - intros k e. apply column_expressions_from_lookup.
  - apply strip_spec.
Qed.

Lemma resolve_headers_sublist (linkid : string) :
  resolve_headers linkid `sublist_of` Pg.string_to_array linkid header_delimiter.
Proof.
  unfold resolve_headers. rewrite resolved_columns_filter. apply sublist_filter.
Qed.

(** C2, as the specification words it, fails: a token of white space is
    not empty, yet the resolver drops it. *)
Lemma resolve_headers_drops_blank_token :
  resolve_headers "A~| ~|B" = ["A"; "B"]
  ∧ spec_header_tokens "A~| ~|B" = ["A"; " "; "B"]
  ∧ resolve_headers "A~| ~|B" ≠ spec_header_tokens "A~| ~|B".
Proof. split_and!; [reflexivity|reflexivity|discriminate]. Qed.

(** C2, amended. The resolver returns, in their original order, the
    tokens of the split header string that are not blank: it drops every
    token that is empty or made of white space only and returns the others
    untrimmed. ["A~|B~|~|C"] gives [A, B, C]. *)
Theorem resolve_headers_nonblank_tokens (linkid : string) :
  resolve_headers linkid
    = filter (fun tok => all_space tok = false)
        (Pg.string_to_array linkid header_delimiter)
  ∧ resolve_headers linkid `sublist_of` Pg.string_to_array linkid header_delimiter
  ∧ resolve_headers "A~|B~|~|C" = ["A"; "B"; "C"].
Proof.
  split_and!; [|apply resolve_headers_sublist|reflexivity].
  unfold resolve_headers. rewrite resolved_columns_filter.
  apply list_filter_iff. intros tok. rewrite strip_empty_iff.
  destruct (all_space tok); naive_solver.
Qed.

End Projection.

(** ** Status classification *)

Section Classification.

Variable a : RuleOutput.

Lemma passing_condition_true : passing_condition a = Some true ↔ passing a.
Proof.
  unfold passing, passing_condition. destruct a as [[s|] [e|]]; simpl.
  - destruct (Z.eqb_spec s 0), (String.eqb_spec e ""); simpl; naive_solver.
  - destruct (Z.eqb_spec s 0); simpl; naive_solver.
  - destruct (String.eqb_spec e ""); simpl; naive_solver.
  - naive_solver.
Qed.

Lemma exception_condition_true : exception_condition a = Some true ↔ long_exception a.
Proof.
  unfold long_exception, exception_condition. destruct (exception a) as [e|]; simpl.
  - destruct (Z.gtb_spec (Z.of_nat (String.length e)) 1); split.
    + intros _. exists e. split; [done|lia].
    + done.
    + done.
    + intros (e' & [= <-] & ?). lia.
  - naive_solver.
Qed.

Lemma breaking_condition_true : breaking_condition a = Some true ↔ positive_score a.
Proof.
  unfold positive_score, breaking_condition. destruct (score a) as [s|]; simpl.
  - destruct (Z.gtb_spec s 0); split.
    + intros _. exists s. split; [done|lia].
    + done.
    + done.
    + intros (s' & [= <-] & ?). lia.
  - naive_solver.
Qed.

Lemma pass_fail_exception_first_true :
  pass_fail_exception a =
  if decide (passing_condition a = Some true) then Some PASSING
  else if decide (exception_condition a = Some true) then Some EXCEPTION
  else if decide (breaking_condition a = Some true) then Some BREAKING
  else None.
Proof.
  unfold pass_fail_exception.
  destruct (passing_condition a) as [[|]|], (exception_condition a) as [[|]|],
    (breaking_condition a) as [[|]|]; reflexivity.
Qed.

End Classification.

(** C3, the last clause fails: a fact with a positive score
    and a one-character exception text reaches the third branch and is
    BREAKING. *)
Lemma positive_score_short_exception_is_breaking :
  pass_fail_exception {| score := Some 5; exception := Some "x" |} = Some BREAKING
  ∧ pass_fail_exception {| score := Some 5; exception := Some "x" |} ≠ None.
Proof. split; [reflexivity|discriminate]. Qed.

(** C3, amended. PASSING exactly when the score is zero and the exception
    text is null or empty; otherwise EXCEPTION exactly when the exception
    text is longer than one character; otherwise BREAKING exactly when the
    score is positive. A fact with a positive score and a one-character
    exception text is BREAKING; the fact left without a status is the one
    with score zero and a one-character exception text. *)
Theorem pass_fail_exception_cases (a : RuleOutput) :
  (pass_fail_exception a = Some PASSING ↔ passing a)
  ∧ (pass_fail_exception a = Some EXCEPTION ↔ ¬ passing a ∧ long_exception a)
  ∧ (pass_fail_exception a = Some BREAKING ↔
       ¬ passing a ∧ ¬ long_exception a ∧ positive_score a)
  ∧ (∀ s e, score a = Some s → 0 < s → exception a = Some e →
            String.length e = 1%nat → pass_fail_exception a = Some BREAKING)
  ∧ (∀ e, score a = Some 0 → exception a = Some e →
          String.length e = 1%nat → pass_fail_exception a = None).
Proof.
  rewrite pass_fail_exception_first_true.
  rewrite <- passing_condition_true, <- exception_condition_true.
  assert (Hbreak := breaking_condition_true a).
  assert (Hpass := passing_condition_true a).
  assert (Hlong := exception_condition_true a).
  split_and!.
  - repeat case_decide; naive_solver.
  - repeat case_decide; naive_solver.
  - rewrite <- Hbreak. repeat case_decide; naive_solver.
  - intros s e Hs Hpos He Hlen.
    assert (¬ passing a) by (unfold passing; intros [? _]; simplify_eq; lia).
    assert (¬ long_exception a) by (intros (? & ? & ?); simplify_eq; lia).
    assert (positive_score a) by (by exists s).
    repeat case_decide; naive_solver.
  - intros e Hs He Hlen.
    assert (¬ passing a).
    { unfold passing. intros [_ [?|?]]; simplify_eq. }
    assert (¬ long_exception a) by (intros (? & ? & ?); simplify_eq; lia).
    assert (¬ positive_score a) by (intros (? & ? & ?); simplify_eq; lia).
    repeat case_decide; naive_solver.
Qed.

(** ** Pagination *)

Lemma ceil_div_unfold (a b : Z) : 0 < b → ceil_div a b = - ((- a) / b).
Proof.
  intros Hb. unfold ceil_div, Qceiling, Qfloor.
  destruct b as [|b|b]; try lia. simpl.
  rewrite Z.mul_1_r. reflexivity.
Qed.

(** C4. For a non-negative count and a page size of at least one,
    [totalPages] is the ceiling of the quotient: the least number of pages
    of that size holding all rows. 101 rows in pages of 100 make 2 pages;
    no rows make no page. *)
Theorem total_pages_ceiling (total_count page_size : Z) :
  0 ≤ total_count → 1 ≤ page_size →
  total_pages total_count page_size = ceil_div total_count page_size
  ∧ (total_pages total_count page_size - 1) * page_size < total_count
      ≤ total_pages total_count page_size * page_size
  ∧ total_pages 101 100 = 2
  ∧ total_pages 0 page_size = 0.
Proof.
  intros Hcount Hsize. unfold total_pages.
  assert (Hbounds : ((total_count + page_size - 1) / page_size - 1) * page_size
                      < total_count
                    ≤ (total_count + page_size - 1) / page_size * page_size).
  { pose proof (Z.div_mod (total_count + page_size - 1) page_size ltac:(lia)).
    pose proof (Z.mod_pos_bound (total_count + page_size - 1) page_size ltac:(lia)).
    nia. }
  split_and!; [|lia|lia|reflexivity|].
  - rewrite ceil_div_unfold by lia.
    symmetry. apply Z.opp_inj. rewrite Z.opp_involutive. symmetry.
    apply Z.div_unique with
      (r := (total_count + page_size - 1) / page_size * page_size - total_count).
    + left. lia.
    + lia.
  - apply Z.div_small. lia.
Qed.

(** 101 rows in pages of 100. *)
Lemma total_pages_ceiling_example :
  total_pages 101 100 = ceil_div 101 100
  ∧ (total_pages 101 100 - 1) * 100 < 101 ≤ total_pages 101 100 * 100
  ∧ total_pages 101 100 = 2
  ∧ total_pages 0 100 = 0.
Proof. apply (total_pages_ceiling 101 100); lia. Defined.

Section Pagination.

Variable py_int : string → string + Z.
Implicit Types args : gmap string string.

Lemma effective_page_size_range (requested : Z) :
  1 ≤ effective_page_size requested ≤ 1000.
Proof. unfold effective_page_size. lia. Qed.

Lemma pagination_params_inv args page page_size days :
  pagination_params py_int args = inr (page, page_size, days) →
  ∃ p s d, int_of_arg py_int args "page" 1 = inr p
           ∧ int_of_arg py_int args "pageSize" 100 = inr s
           ∧ int_of_arg py_int args "days" 1 = inr d
           ∧ page = at_least_one p
           ∧ page_size = effective_page_size s
           ∧ days = at_least_one d.
Proof.
  unfold pagination_params.
  destruct (int_of_arg py_int args "page" 1) as [|p]; [done|].
  destruct (int_of_arg py_int args "pageSize" 100) as [|s]; [done|].
  destruct (int_of_arg py_int args "days" 1) as [|d]; [done|].
  intros [= <- <- <-]. by exists p, s, d.
Qed.

(** C5. A [pageSize] that parses as the integer [requested] gives the
    effective page size [max(1, min(1000, requested))]; 5000 becomes
    1000; whatever was asked, a validated page size lies in
    [[1, 1000]]. *)
Theorem page_size_clamped args (text : string) (requested page page_size days : Z) :
  args !! "pageSize" = Some text →
  py_int text = inr requested →
  pagination_params py_int args = inr (page, page_size, days) →
  page_size = Z.max 1 (Z.min 1000 requested)
  ∧ 1 ≤ page_size ≤ 1000
  ∧ effective_page_size 5000 = 1000.
Proof.
  intros Harg Hint (p & s & d & _ & Hs & _ & _ & -> & _)%pagination_params_inv.
  unfold int_of_arg in Hs. rewrite Harg, Hint in Hs. injection Hs as <-.
  split; [done|]. split; [apply effective_page_size_range|reflexivity].
Qed.

(** C10. When [page], [pageSize] and [days] all parse, the request is
    validated whatever their values: a [page] or [days] below 1 becomes 1
    instead of a client error. Every validated request has [page ≥ 1],
    [days ≥ 1] and an offset [(page - 1) * page_size ≥ 0]. *)
Theorem page_and_days_clamped args (p s d : Z) :
  int_of_arg py_int args "page" 1 = inr p →
  int_of_arg py_int args "pageSize" 100 = inr s →
  int_of_arg py_int args "days" 1 = inr d →
  pagination_params py_int args
    = inr (Z.max 1 p, effective_page_size s, Z.max 1 d)
  ∧ (p < 1 → Z.max 1 p = 1)
  ∧ (d < 1 → Z.max 1 d = 1)
  ∧ (∀ page page_size days,
       pagination_params py_int args = inr (page, page_size, days) →
       1 ≤ page ∧ 1 ≤ days ∧ 0 ≤ page_offset page page_size).
Proof.
  intros Hp Hs Hd. unfold pagination_params. rewrite Hp, Hs, Hd.
  split_and!; [done|lia|lia|].
  intros page page_size days [= <- <- <-].
  pose proof (effective_page_size_range s).
  unfold page_offset, at_least_one. split_and!; [lia|lia|nia].
Qed.

End Pagination.

(** The request [pageSize=5000]. *)
Lemma page_size_clamped_example :
  1000 = Z.max 1 (Z.min 1000 5000)
  ∧ 1 ≤ 1000 ≤ 1000
  ∧ effective_page_size 5000 = 1000.
Proof.
  apply (page_size_clamped decimal_int
           {[ "dataset" := "ds"; "pageSize" := "5000" ]} "5000" 5000 1 1000 1);
    vm_compute; reflexivity.
Defined.

(** The request [page=-3&days=0]. *)
Lemma page_and_days_clamped_example :
  let args : gmap string string := {[ "dataset" := "ds"; "page" := "-3"; "days" := "0" ]} in
  pagination_params decimal_int args
    = inr (Z.max 1 (-3), effective_page_size 100, Z.max 1 0)
  ∧ (-3 < 1 → Z.max 1 (-3) = 1)
  ∧ (0 < 1 → Z.max 1 0 = 1)
  ∧ (∀ page page_size days,
       pagination_params decimal_int args = inr (page, page_size, days) →
       1 ≤ page ∧ 1 ≤ days ∧ 0 ≤ page_offset page page_size).
Proof.
  apply (page_and_days_clamped decimal_int
           {[ "dataset" := "ds"; "page" := "-3"; "days" := "0" ]} (-3) 100 0);
    vm_compute; reflexivity.
Defined.

(** ** Handlers *)

(** Bodies are inspected key by key; [simpl] leaves the lookups alone. *)
Arguments json_get : simpl never.

(** Unfolds one layer of a handler and its monadic plumbing. *)
Ltac unfold_handler :=
  repeat progress unfold run, get_datasets, parse_dataset, get_dashboard_health,
    get_schema, parse_with_conn, parse_rows, get_db_connection, int_arg,
    try_finally, try_except, exec, close, emit, lift, raise,
    assign_conn, read_conn, opened, submit, execute_query, query_names,
    getitem, status_of, body_of, trace_of,
    mbind, mret, M_bind, M_ret; simpl.

(** Replaces each database answer the goal waits for by what a hypothesis
    says about it. *)
Ltac use_answers :=
  repeat (unfold_handler;
          match goal with
          | H : int_of_arg _ _ _ _ = _ |- _ => rewrite H
          | H : pagination_params _ _ = _ |- _ => rewrite H
          | H : date_threshold_of _ _ = _ |- _ => rewrite H
          | H : db_connect _ = _ |- _ => rewrite H
          | H : db_select_one _ = _ |- _ => rewrite H
          | H : db_datasets _ _ = _ |- _ => rewrite H
          | H : db_opt_owl_count _ _ = _ |- _ => rewrite H
          | H : db_rule_breaks_count _ _ _ = _ |- _ => rewrite H
          | H : db_header_rows _ _ = _ |- _ => rewrite H
          | H : db_parse_rows _ _ _ _ _ _ = _ |- _ => rewrite H
          | H : db_rule_output_count _ _ = _ |- _ => rewrite H
          | H : db_aggregate _ _ _ = _ |- _ => rewrite H
          | H : db_schema_columns _ _ = _ |- _ => rewrite H
          | H : (_ =? _) = _ |- _ => rewrite H
          | H : _ !! _ = _ |- _ => rewrite H
          end);
  unfold_handler.

(** Splits a membership in an explicit log into its cases. *)
Ltac in_log H :=
  repeat (apply elem_of_cons in H as [H|H]; [try discriminate H|]);
  try (apply elem_of_nil in H; contradiction).

(** Splits [key ∈ query_names] into the four keys. *)
Ltac each_key H :=
  unfold query_names in H;
  repeat (apply elem_of_cons in H as [->|H]);
  [..|apply elem_of_nil in H; contradiction].

Section Health.

Variable py_int : string → string + Z.
Variable db : Db.
Implicit Types args : gmap string string.

Lemma results_lookup (f1 f2 f3 f4 : Frame) :
  let results : gmap string Frame :=
    <["businessUnits":=f4]> (<["dimensions":=f3]>
      (<["timeSeries":=f2]> (<["globalHealth":=f1]> ∅))) in
  results !! "globalHealth" = Some f1 ∧ results !! "timeSeries" = Some f2
  ∧ results !! "dimensions" = Some f3 ∧ results !! "businessUnits" = Some f4.
Proof. intros results. unfold results. split_and!; by simplify_map_eq. Qed.

(** C6. When the request reaches the verification query and it counts no
    fact, the answer is 404 with the four aggregates present and empty;
    the log shows the connection test, the verification and the close,
    and no aggregate query. *)
Theorem health_no_data_is_404 args (days : Z) :
  int_of_arg py_int args "days" 2 = inr days →
  db_connect db = None →
  db_select_one db = None →
  db_rule_output_count db days = inr 0 →
  let r := run (get_dashboard_health py_int db args) in
  status_of r = 404
  ∧ (∀ key, key ∈ query_names → json_get key (body_of r) = Some (JList []))
  ∧ (∀ c name d, Exec c (AggregateSql name d) ∉ trace_of r)
  ∧ trace_of r = [Open 0%nat; Exec 0%nat SelectOne;
                  Exec 0%nat (VerifyHealthSql days); Close 0%nat].
Proof.
  intros Hdays Hconnect Hselect Hcount. use_answers.
  split_and!; [done| | |done].
  - intros key Hkey. each_key Hkey; reflexivity.
  - intros c name d Hin. in_log Hin.
Qed.

(** C7. A failing aggregate query fails the request: whenever the log
    shows an aggregate query that the database answered with an
    exception, the status is 500 and the body has none of the four
    aggregates. A 200 answer carries all four, each being what its query
    returned; and no answer carries some of the four keys without the
    others. *)
Theorem health_all_or_nothing args :
  let r := run (get_dashboard_health py_int db args) in
  (∀ c name days e,
     Exec c (AggregateSql name days) ∈ trace_of r →
     db_aggregate db name days = inl e →
     status_of r = 500
     ∧ ∀ key, key ∈ query_names → json_get key (body_of r) = None)
  ∧ (status_of r = 200 →
     ∀ key, key ∈ query_names →
       ∃ days frame,
         Exec 0%nat (AggregateSql key days) ∈ trace_of r
         ∧ db_aggregate db key days = inr frame
         ∧ json_get key (body_of r) = Some (JList frame))
  ∧ ((∀ key, key ∈ query_names → is_Some (json_get key (body_of r)))
     ∨ (∀ key, key ∈ query_names → json_get key (body_of r) = None)).
Proof.
  assert (Hnone : ∀ (error type details : Json) key, key ∈ query_names →
            json_get key (JObj [("error", error); ("type", type);
                                ("details", details)]) = None).
  { intros error type details key Hkey. each_key Hkey; reflexivity. }
  destruct (int_of_arg py_int args "days" 2) as [msg|days] eqn:Hdays.
  { use_answers. split_and!; [|done|by right; apply Hnone].
    intros c name d e Hin. in_log Hin. }
  destruct (db_connect db) as [e0|] eqn:Hconnect.
  { use_answers. split_and!; [|done|by right; apply Hnone].
    intros c name d e Hin. in_log Hin. }
  destruct (db_select_one db) as [e0|] eqn:Hselect.
  { use_answers. split_and!; [|done|by right; apply Hnone].
    intros c name d e Hin. in_log Hin. }
  destruct (db_rule_output_count db days) as [e0|n] eqn:Hcount.
  { use_answers. split_and!; [|done|by right; apply Hnone].
    intros c name d e Hin. in_log Hin. }
  destruct (n =? 0) eqn:Hzero.
  { use_answers. split_and!; [|done|].
    - intros c name d e Hin. in_log Hin.
    - left. intros key Hkey. each_key Hkey; by eexists. }
  use_answers.
  destruct (db_aggregate db "globalHealth" days) as [e1|f1] eqn:H1,
           (db_aggregate db "timeSeries" days) as [e2|f2] eqn:H2,
           (db_aggregate db "dimensions" days) as [e3|f3] eqn:H3,
           (db_aggregate db "businessUnits" days) as [e4|f4] eqn:H4.
  all: simpl.
  all: try (destruct (results_lookup f1 f2 f3 f4) as (-> & -> & -> & ->); simpl).
  all: split_and!.
  all: try (intros c name d e Hin Hfail; in_log Hin; simplify_eq;
            first [congruence | split; [done|apply Hnone]]).
  all: try done.
  all: try (right; apply Hnone).
  - intros _ key Hkey. exists days.
    each_key Hkey; eexists; (split_and!; [|eassumption|reflexivity]);
      rewrite !elem_of_cons; naive_solver.
  - left. intros key Hkey. each_key Hkey; by eexists.
Qed.

(** The response and the log when the third aggregate query fails. *)
Example health_with_failing_dimensions :
  run (get_dashboard_health decimal_int (failing_aggregate_db "dimensions") ∅)
  = (error_envelope query_failed,
     [Open 0%nat; Exec 0%nat SelectOne; Exec 0%nat (VerifyHealthSql 2);
      Exec 0%nat (AggregateSql "globalHealth" 2);
      Exec 0%nat (AggregateSql "timeSeries" 2);
      Exec 0%nat (AggregateSql "dimensions" 2);
      Exec 0%nat (AggregateSql "businessUnits" 2);
      Close 0%nat]).
Proof. reflexivity. Qed.

End Health.

(** The default request against a database without facts. *)
Lemma health_no_data_is_404_example :
  let r := run (get_dashboard_health decimal_int (quiet_db 0) ∅) in
  status_of r = 404
  ∧ (∀ key, key ∈ query_names → json_get key (body_of r) = Some (JList []))
  ∧ (∀ c name d, Exec c (AggregateSql name d) ∉ trace_of r)
  ∧ trace_of r = [Open 0%nat; Exec 0%nat SelectOne;
                  Exec 0%nat (VerifyHealthSql 2); Close 0%nat].
Proof.
  apply (health_no_data_is_404 decimal_int (quiet_db 0) ∅ 2); reflexivity.
Defined.

Section Parse.

Variable py_int : string → string + Z.
Variable now : Z.
Implicit Types args : gmap string string.
Implicit Types db : Db.

Lemma opt_owl_count_zero (opt_owl : list OptOwlRow) (dataset : string) :
  opt_owl_count opt_owl dataset = 0 ↔ ∀ r, r ∈ opt_owl → row_dataset r ≠ dataset.
Proof.
  unfold opt_owl_count. induction opt_owl as [|r rest IH].
  { split; [|done]. intros _ r Hr. by apply elem_of_nil in Hr. }
  destruct (decide (row_dataset r = dataset)) as [Heq|Hne].
  - rewrite filter_cons_True by done. simpl. split; [lia|].
    intros Hall. destruct (Hall r); [left|done].
  - rewrite filter_cons_False by done. rewrite IH. split.
    + intros Hall r' [->|Hr']%elem_of_cons; auto.
    + intros Hall r' Hr'. apply Hall. by right.
Qed.

Lemma opt_owl_header_rows_nil (opt_owl : list OptOwlRow) (dataset : string) :
  opt_owl_header_rows opt_owl dataset = [] → opt_owl_count opt_owl dataset = 0.
Proof.
  unfold opt_owl_header_rows, opt_owl_count.
  destruct (filter _ opt_owl); [done|discriminate].
Qed.

Lemma not_found_is_not_no_headers (dataset : string) :
  dataset_not_found dataset ≠ no_headers_found dataset.
Proof. intros [= ]. Qed.

(** The Header Resolver inside [parse_dataset], for any database. *)
Lemma header_lookup_answers db args (dataset : string)
    (page page_size days date_threshold : Z) :
  args !! "dataset" = Some dataset → dataset ≠ "" →
  pagination_params py_int args = inr (page, page_size, days) →
  date_threshold_of now days = inr date_threshold →
  db_connect db = None →
  db_select_one db = None →
  let resp := (run (parse_dataset py_int now db args)).1 in
  (resp = dataset_not_found dataset ↔ db_opt_owl_count db dataset = inr 0)
  ∧ (resp = no_headers_found dataset ↔
       (∃ n, db_opt_owl_count db dataset = inr n ∧ n ≠ 0)
       ∧ (∃ total, db_rule_breaks_count db dataset date_threshold = inr total)
       ∧ db_header_rows db dataset = inr []).
Proof.
  intros Hdataset Hne Hparams Hthreshold Hconnect Hselect.
  destruct dataset as [|c0 dataset]; [done|].
  destruct (db_opt_owl_count db (String c0 dataset)) as [e|n] eqn:Hfound.
  { use_answers. split; (split; [intros [= ]|naive_solver]). }
  destruct (n =? 0) eqn:Hzero.
  { apply Z.eqb_eq in Hzero as Hn. use_answers. split.
    - split; [by intros _; subst|done].
    - split; [by intros ?%not_found_is_not_no_headers|naive_solver]. }
  apply Z.eqb_neq in Hzero as Hn.
  destruct (db_rule_breaks_count db (String c0 dataset) date_threshold)
    as [e|total] eqn:Htotal.
  { use_answers. split; (split; [intros [= ]|naive_solver]). }
  destruct (db_header_rows db (String c0 dataset)) as [e|[|[headers|] rows]] eqn:Hrows.
  - use_answers. split; (split; [intros [= ]|naive_solver]).
  - use_answers. split.
    + split; [by intros ?%symmetry%not_found_is_not_no_headers|naive_solver].
    + split; [naive_solver|done].
  - use_answers.
    destruct (db_parse_rows db _ _ _ _ _) as [e|df];
      unfold_handler; split; (split; [intros [= ]|naive_solver]).
  - use_answers. split; (split; [intros [= ]|naive_solver]).
Qed.

(** The resolver as the endpoint runs it: for a dataset whose first
    [opt_owl] row stores [linkid], a request that gets through all its
    queries answers 200 with [columns] being the resolved headers, and
    sends the parse query with the matching column list. *)
Lemma parse_dataset_columns db args (dataset linkid : string)
    (page page_size days date_threshold total : Z)
    (opt_owl others : list OptOwlRow) (df : Frame) :
  args !! "dataset" = Some dataset → dataset ≠ "" →
  pagination_params py_int args = inr (page, page_size, days) →
  date_threshold_of now days = inr date_threshold →
  db_connect db = None →
  db_select_one db = None →
  filter (fun r => row_dataset r = dataset) opt_owl
    = {| row_dataset := dataset; row_linkid := Some linkid |} :: others →
  db_rule_breaks_count db dataset date_threshold = inr total →
  db_parse_rows db
    (columns_sql (Pg.string_to_array linkid header_delimiter))
    dataset date_threshold page_size (page_offset page page_size) = inr df →
  let r := run (parse_dataset py_int now (with_opt_owl opt_owl db) args) in
  status_of r = 200
  ∧ json_get "columns" (body_of r) = Some (JList (JStr <$> resolve_headers linkid))
  ∧ json_get "rows" (body_of r) = Some (JList df).
Proof.
  intros Hdataset Hne Hparams Hthreshold Hconnect Hselect Hrow Htotal Hrows.
  destruct dataset as [|c0 dataset]; [done|].
  unfold_handler. rewrite Hdataset, Hparams. unfold_handler.
  rewrite Hthreshold. unfold_handler. rewrite Hconnect. unfold_handler.
  rewrite Hselect. unfold_handler.
  unfold opt_owl_count, opt_owl_header_rows. rewrite Hrow.
  unfold_handler. rewrite Htotal. unfold_handler. rewrite Hrows.
  unfold_handler. done.
Qed.

(** C8, amended. "Dataset not found" is the answer exactly when the
    existence count is zero, that is when [opt_owl] has no row for the
    dataset. "No headers found" is the answer exactly when the existence
    check passed, the break count was obtained and the header query
    returned no row; with both statements answered from the same table
    this never happens, so a header row whose tokens are all blank is not
    answered with "no headers". *)
Theorem header_resolver_errors db args (dataset : string)
    (page page_size days date_threshold : Z) (opt_owl : list OptOwlRow) :
  args !! "dataset" = Some dataset → dataset ≠ "" →
  pagination_params py_int args = inr (page, page_size, days) →
  date_threshold_of now days = inr date_threshold →
  db_connect db = None →
  db_select_one db = None →
  let resp := (run (parse_dataset py_int now db args)).1 in
  let resp_table := (run (parse_dataset py_int now (with_opt_owl opt_owl db) args)).1 in
  (resp = dataset_not_found dataset ↔ db_opt_owl_count db dataset = inr 0)
  ∧ (resp = no_headers_found dataset ↔
       (∃ n, db_opt_owl_count db dataset = inr n ∧ n ≠ 0)
       ∧ (∃ total, db_rule_breaks_count db dataset date_threshold = inr total)
       ∧ db_header_rows db dataset = inr [])
  ∧ (resp_table = dataset_not_found dataset ↔
       ∀ r, r ∈ opt_owl → row_dataset r ≠ dataset)
  ∧ resp_table ≠ no_headers_found dataset.
Proof.
  intros Hdataset Hne Hparams Hthreshold Hconnect Hselect resp resp_table.
  pose proof (header_lookup_answers db args dataset page page_size days
                date_threshold Hdataset Hne Hparams Hthreshold Hconnect Hselect)
    as [Hfound Hheaders].
  pose proof (header_lookup_answers (with_opt_owl opt_owl db) args dataset page
                page_size days date_threshold Hdataset Hne Hparams Hthreshold
                Hconnect Hselect) as [Hfound' Hheaders'].
  change (resp_table = dataset_not_found dataset
          ↔ inr (opt_owl_count opt_owl dataset) = inr 0 :> Exn + Z) in Hfound'.
  change (resp_table = no_headers_found dataset
          ↔ (∃ n, inr (opt_owl_count opt_owl dataset) = inr n :> Exn + Z ∧ n ≠ 0)
            ∧ (∃ total, db_rule_breaks_count db dataset date_threshold = inr total)
            ∧ inr (opt_owl_header_rows opt_owl dataset) = inr []
                :> Exn + list (option (list string))) in Hheaders'.
  split; [exact Hfound|]. split; [exact Hheaders|]. clearbody resp resp_table. split.
  - rewrite Hfound', <- opt_owl_count_zero. split; [by intros [= ]|by intros ->].
  - rewrite Hheaders'. intros ((n & [= <-] & Hn) & _ & [= Hrows]).
    by apply opt_owl_header_rows_nil in Hrows.
Qed.

End Parse.

(** The dataset [ds] with the stored header [A~|B]. *)
Lemma header_resolver_errors_example :
  let args : gmap string string := {[ "dataset" := "ds" ]} in
  let opt_owl := [ {| row_dataset := "ds"; row_linkid := Some "A~|B" |} ] in
  let resp := (run (parse_dataset decimal_int sample_now (quiet_db 0) args)).1 in
  let resp_table :=
    (run (parse_dataset decimal_int sample_now
            (with_opt_owl opt_owl (quiet_db 0)) args)).1 in
  (resp = dataset_not_found "ds" ↔ db_opt_owl_count (quiet_db 0) "ds" = inr 0)
  ∧ (resp = no_headers_found "ds" ↔
       (∃ n, db_opt_owl_count (quiet_db 0) "ds" = inr n ∧ n ≠ 0)
       ∧ (∃ total, db_rule_breaks_count (quiet_db 0) "ds"
                     (sample_now - microseconds_per_day) = inr total)
       ∧ db_header_rows (quiet_db 0) "ds" = inr [])
  ∧ (resp_table = dataset_not_found "ds" ↔
       ∀ r, r ∈ opt_owl → row_dataset r ≠ "ds")
  ∧ resp_table ≠ no_headers_found "ds".
Proof.
  apply (header_resolver_errors decimal_int sample_now (quiet_db 0)
           {[ "dataset" := "ds" ]} "ds" 1 100 1
           (sample_now - microseconds_per_day));
    [vm_compute; reflexivity|discriminate|vm_compute; reflexivity
    |vm_compute; reflexivity|reflexivity|reflexivity].
Defined.

(** C8, as the specification words it, fails: the dataset has a header
    row, every token of it is blank, and the answer is not "no headers": the
    parse query is sent with an empty column list. *)
Lemma blank_header_row_is_not_no_headers :
  let args : gmap string string := {[ "dataset" := "ds" ]} in
  let opt_owl := [ {| row_dataset := "ds"; row_linkid := Some " ~| " |} ] in
  let r := run (parse_dataset decimal_int sample_now
                  (with_opt_owl opt_owl strict_db) args) in
  opt_owl_header_rows opt_owl "ds" = [Some [" "; " "]]
  ∧ resolved_columns [" "; " "] = []
  ∧ r.1 = error_envelope syntax_error
  ∧ r.2 = [Open 0%nat; Exec 0%nat SelectOne; Exec 0%nat (VerifyDatasetSql "ds");
           Exec 0%nat (CountBreaksSql "ds" (sample_now - microseconds_per_day));
           Exec 0%nat (HeadersSql "ds");
           Exec 0%nat (ParseSql "" "ds" (sample_now - microseconds_per_day) 100 0);
           Close 0%nat]
  ∧ r.1 ≠ no_headers_found "ds".
Proof.
  split_and!.
  - vm_compute. reflexivity.
  - vm_compute. reflexivity.
  - vm_compute. reflexivity.
  - vm_compute. reflexivity.
  - vm_compute. intros [= ].
Qed.

(** ** Connection handling *)

Section Connections.

Variable py_int : string → string + Z.
Variable now : Z.
Variable db : Db.
Implicit Types args : gmap string string.

(** X18. [parse_dataset]: whenever the connection test passes, the log is
    empty (no connection) or one connection opened, used and closed, on
    the success path and on every error path. *)
Lemma parse_dataset_one_connection args :
  db_select_one db = None →
  one_connection (trace_of (run (parse_dataset py_int now db args))) = true.
Proof.
  intros Hselect.
  destruct (args !! "dataset") as [[|c0 dataset]|] eqn:Hdataset;
    [by use_answers| |by use_answers].
  destruct (pagination_params py_int args) as [msg|[[page page_size] days]]
    eqn:Hparams; [by use_answers|].
  destruct (date_threshold_of now days) as [e|date_threshold] eqn:Hthreshold;
    [by use_answers|].
  destruct (db_connect db) as [e|] eqn:Hconnect; [by use_answers|].
  destruct (db_opt_owl_count db (String c0 dataset)) as [e|n] eqn:Hfound;
    [by use_answers|].
  destruct (n =? 0) eqn:Hzero; [by use_answers|].
  destruct (db_rule_breaks_count db (String c0 dataset) date_threshold)
    as [e|total] eqn:Htotal; [by use_answers|].
  destruct (db_header_rows db (String c0 dataset))
    as [e|[|[headers|] rows]] eqn:Hrows; try (by use_answers).
  use_answers. by destruct (db_parse_rows db _ _ _ _ _).
Qed.

(** X19. [get_dashboard_health], likewise: no connection, or one
    connection opened, used for every statement and closed, whatever the
    queries answer. *)
Lemma get_dashboard_health_one_connection args :
  db_select_one db = None →
  one_connection (trace_of (run (get_dashboard_health py_int db args))) = true.
Proof.
  intros Hselect.
  destruct (int_of_arg py_int args "days" 2) as [msg|days] eqn:Hdays;
    [by use_answers|].
  destruct (db_connect db) as [e|] eqn:Hconnect; [by use_answers|].
  destruct (db_rule_output_count db days) as [e|n] eqn:Hcount; [by use_answers|].
  destruct (n =? 0) eqn:Hzero; [by use_answers|].
  use_answers.
  destruct (db_aggregate db "globalHealth" days) as [e1|f1],
           (db_aggregate db "timeSeries" days) as [e2|f2],
           (db_aggregate db "dimensions" days) as [e3|f3],
           (db_aggregate db "businessUnits" days) as [e4|f4]; simpl; done.
Qed.

(** X20. [get_schema], likewise: no connection, or one connection
    opened, used for every statement and closed, whatever the queries
    answer. *)
Lemma get_schema_one_connection :
  db_select_one db = None →
  one_connection (trace_of (run (get_schema db))) = true.
Proof.
  intros Hselect.
  destruct (db_connect db) as [e|] eqn:Hconnect; [by use_answers|].
  use_answers.
  destruct (db_schema_columns db "dataset_scan"); simpl; [done|].
  destruct (db_schema_columns db "dataset_schema"); simpl; [done|].
  by destruct (db_schema_columns db "owl_catalog").
Qed.

(** [get_datasets] closes its connection when the listing query
    succeeds. *)
Lemma get_datasets_closes_on_success args (days date_threshold : Z) (df : Frame) :
  int_of_arg py_int args "days" 1 = inr days →
  date_threshold_of now days = inr date_threshold →
  db_connect db = None →
  db_select_one db = None →
  db_datasets db date_threshold = inr df →
  run (get_datasets py_int now db args)
  = ((200, JList df),
     [Open 0%nat; Exec 0%nat SelectOne; Exec 0%nat (DatasetsSql date_threshold);
      Close 0%nat]).
Proof. intros. by use_answers. Qed.

(** When the listing query raises, [get_datasets] answers 500 and the
    log ends with the query: the connection is never closed. *)
Lemma get_datasets_leaks_on_query_error args (days date_threshold : Z) (e : Exn) :
  int_of_arg py_int args "days" 1 = inr days →
  date_threshold_of now days = inr date_threshold →
  db_connect db = None →
  db_select_one db = None →
  db_datasets db date_threshold = inl e →
  run (get_datasets py_int now db args)
  = (error_only e,
     [Open 0%nat; Exec 0%nat SelectOne; Exec 0%nat (DatasetsSql date_threshold)]).
Proof. intros. by use_answers. Qed.

(** A connection whose test query fails is left open by
    [get_db_connection] itself, whatever the handler. *)
Lemma failed_connection_test_leaks (e : Exn) :
  db_connect db = None →
  db_select_one db = Some e →
  run (get_schema db)
  = (error_only e, [Open 0%nat; Exec 0%nat SelectOne]).
Proof. intros. by use_answers. Qed.

End Connections.

(** C9, the failing request: [GET /api/datasets] with a listing query that
    raises. The connection is opened and used, the answer is 500, and the
    log has no [Close]; [parse_dataset], [get_dashboard_health] and
    [get_schema] close theirs on the same path
    ([parse_dataset_one_connection] and its siblings). *)
Theorem get_datasets_leaves_connection_open :
  let r := run (get_datasets decimal_int sample_now failing_datasets_db ∅) in
  r = (error_only query_failed,
       [Open 0%nat; Exec 0%nat SelectOne;
        Exec 0%nat (DatasetsSql (sample_now - microseconds_per_day))])
  ∧ one_connection (trace_of r) = false
  ∧ Close 0%nat ∉ trace_of r.
Proof.
  split_and!.
  - vm_compute. reflexivity.
  - vm_compute. reflexivity.
  - replace (trace_of _) with
      [Open 0%nat; Exec 0%nat SelectOne;
       Exec 0%nat (DatasetsSql (sample_now - microseconds_per_day))]
      by (vm_compute; reflexivity).
    intros Hin. in_log Hin.
Qed.

(** * Further properties of the handlers *)

(** ** The column list and the response columns *)

Section ProjectionText.
Import PyStr PyStrFacts.

Lemma column_expression_nonempty (i : nat) (col : string) :
  column_expression i col ≠ "".
Proof. unfold column_expression. rewrite app_cons. discriminate. Qed.

Lemma join_nonempty_head (sep e : string) (rest : list string) :
  e ≠ "" → join sep (e :: rest) ≠ "".
Proof.
  destruct e as [|c e]; [done|]. intros _.
  rewrite PgFacts.join_cons_head. discriminate.
Qed.

Lemma column_expressions_from_nil (j : nat) (headers : list string) :
  column_expressions_from j headers = [] ↔ ∀ h, h ∈ headers → strip h = "".
Proof.
  revert j. induction headers as [|h rest IH]; intros j; simpl.
  { split; [|done]. intros _ h Hh. by apply elem_of_nil in Hh. }
  destruct (truthy (strip h)) eqn:Ht.
  - apply truthy_true in Ht. split; [done|].
    intros Hall. destruct Ht. apply Hall. by left.
  - apply truthy_false in Ht. rewrite IH. split.
    + intros Hall h' [->|Hh']%elem_of_cons; auto.
    + intros Hall h' Hh'. apply Hall. by right.
Qed.

(** X1. The spliced column list is the empty text exactly when every
    header token is blank after trimming, which is also exactly when the
    response would list no column. *)
Theorem columns_sql_empty_iff (headers : list string) :
  (columns_sql headers = "" ↔ ∀ h, h ∈ headers → strip h = "")
  ∧ (resolved_columns headers = [] ↔ ∀ h, h ∈ headers → strip h = "").
Proof.
  split.
  - rewrite <- (column_expressions_from_nil 0 headers).
    unfold columns_sql, column_expressions.
    destruct (column_expressions_from 0 headers) as [|e rest] eqn:Hexprs; [done|].
    split; [|done]. intros Hjoin. exfalso.
    apply (join_nonempty_head ", " e rest); [|done].
    assert (Hin : (e :: rest) !! 0%nat = Some e) by done.
    rewrite <- Hexprs in Hin.
    apply column_expressions_from_lookup in Hin as (i & col & _ & _ & _ & ->).
    apply column_expression_nonempty.
  - rewrite resolved_columns_filter. induction headers as [|h rest IH].
    { split; [|done]. intros _ h Hh. by apply elem_of_nil in Hh. }
    destruct (decide (strip h = "")) as [Hblank|Hblank].
    + rewrite filter_cons_False by (by intros []). rewrite IH. split.
      * intros Hall h' [->|Hh']%elem_of_cons; auto.
      * intros Hall h' Hh'. apply Hall. by right.
    + rewrite filter_cons_True by done. split; [done|].
      intros Hall. destruct Hblank. apply Hall. by left.
Qed.

Lemma column_expressions_from_aligned (j : nat) (headers : list string) k e col :
  column_expressions_from j headers !! k = Some e →
  resolved_columns headers !! k = Some col →
  ∃ i, headers !! i = Some col ∧ e = column_expression (j + i) col.
Proof.
  revert j k. induction headers as [|h rest IH]; intros j k; [done|]. simpl.
  destruct (truthy (strip h)) eqn:Ht.
  - destruct k as [|k]; simpl.
    + intros [= <-] [= <-]. exists 0%nat. by rewrite Nat.add_0_r.
    + intros He Hcol. destruct (IH (S j) k He Hcol) as (i & Hi & ->).
      exists (S i). by rewrite Nat.add_succ_r.
  - intros He Hcol. destruct (IH (S j) k He Hcol) as (i & Hi & ->).
    exists (S i). by rewrite Nat.add_succ_r.
Qed.

(** X2. The response columns and the projected columns are aligned: there
    are as many of each, and the expression at position [k] names its
    column by the trimmed text of the response column at position [k] (the
    response keeps the token untrimmed). *)
Theorem columns_aligned_with_expressions (headers : list string) :
  length (column_expressions headers) = length (resolved_columns headers)
  ∧ ∀ k e col,
      column_expressions headers !! k = Some e →
      resolved_columns headers !! k = Some col →
      ∃ i, headers !! i = Some col
           ∧ e = "d.value[" +:+ str_of_nat (i + 1) +:+ "] AS " +:+ strip col.
Proof.
  split.
  - unfold column_expressions.
    by rewrite column_expressions_from_length, resolved_columns_filter.
  - intros k e col He Hcol.
    apply (column_expressions_from_aligned 0 headers k e col He Hcol).
Qed.

Lemma join_contains (sep e : string) (parts : list string) :
  e ∈ parts → ∃ pre post, join sep parts = pre +:+ e +:+ post.
Proof.
  induction parts as [|p rest IH]; [by intros ?%elem_of_nil|].
  intros [->|Hin]%elem_of_cons.
  - destruct rest as [|q rest].
    + exists "", "". by rewrite app_nil_l, app_nil_r.
    + exists "", (sep +:+ join sep (q :: rest)). by rewrite app_nil_l.
  - destruct (IH Hin) as (pre & post & Hjoin).
    destruct rest as [|q rest]; [by apply elem_of_nil in Hin|].
    exists (p +:+ sep +:+ pre), post.
    rewrite PgFacts.join_cons, Hjoin. by rewrite !app_assoc.
Qed.

Lemma contains_in_part (s e pre post x : string) (t : string) :
  t = pre +:+ e +:+ post → e = x +:+ s →
  ∀ head tail, ∃ pre' post', head +:+ t +:+ tail = pre' +:+ s +:+ post'.
Proof.
  intros -> -> head tail. exists (head +:+ pre +:+ x), (post +:+ tail).
  by rewrite !app_assoc.
Qed.

(** X3. A header token reaches the SQL text as it is stored: for every
    token that is not blank, the text of the parse query contains
    [AS] followed by the trimmed token, with no quoting or escaping. *)
Theorem header_token_spliced_verbatim (headers : list string) (i : nat) (col : string) :
  headers !! i = Some col →
  strip col ≠ "" →
  ∃ pre post,
    parse_sql_text (columns_sql headers) = pre +:+ (" AS " +:+ strip col) +:+ post.
Proof.
  intros Hi Hcol.
  assert (Hin : column_expression i col ∈ column_expressions headers).
  { apply list_elem_of_lookup. eexists.
    apply column_expressions_from_lookup. exists i, col. by split_and!. }
  destruct (join_contains ", " _ _ Hin) as (pre & post & Hjoin).
  unfold parse_sql_text.
  apply (contains_in_part _ (column_expression i col) pre post
           ("d.value[" +:+ str_of_nat (i + 1) +:+ "]")); [exact Hjoin|].
  unfold column_expression. rewrite !app_assoc. reflexivity.
Qed.

End ProjectionText.

(** A token that carries a statement of its own. *)
Lemma header_token_spliced_verbatim_example :
  ∃ pre post,
    parse_sql_text (columns_sql ["id"; " x; DROP TABLE t "])
    = pre +:+ (" AS " +:+ PyStr.strip " x; DROP TABLE t ") +:+ post.
Proof.
  apply (header_token_spliced_verbatim ["id"; " x; DROP TABLE t "] 1
           " x; DROP TABLE t "); [reflexivity|vm_compute; discriminate].
Defined.

(** ** Pages *)

(** X4. The pages tile the rows: each page starts where the previous one
    ends, the last of the [totalPages] pages starts before the end of the
    rows and the page after it starts at or past the end. *)
Theorem pages_cover_rows (total_count page_size : Z) :
  0 < total_count → 1 ≤ page_size →
  1 ≤ total_pages total_count page_size
  ∧ page_offset (total_pages total_count page_size) page_size < total_count
  ∧ total_count ≤ page_offset (total_pages total_count page_size + 1) page_size
  ∧ ∀ page, page_offset (page + 1) page_size = page_offset page page_size + page_size.
Proof.
  intros Hcount Hsize.
  unfold page_offset, total_pages.
  pose proof (Z.div_mod (total_count + page_size - 1) page_size ltac:(lia)).
  pose proof (Z.mod_pos_bound (total_count + page_size - 1) page_size ltac:(lia)).
  split_and!; [nia|nia|nia|intros; lia].
Qed.

(** 101 rows in pages of 100: page 2 starts at row 100. *)
Lemma pages_cover_rows_example :
  1 ≤ total_pages 101 100
  ∧ page_offset (total_pages 101 100) 100 < 101
  ∧ 101 ≤ page_offset (total_pages 101 100 + 1) 100
  ∧ ∀ page, page_offset (page + 1) 100 = page_offset page 100 + 100.
Proof. apply (pages_cover_rows 101 100); lia. Defined.

(** ** [parse_dataset]: validation *)

Section ParseValidation.

Variable py_int : string → string + Z.
Variable now : Z.
Variable db : Db.
Implicit Types args : gmap string string.

(** X5. [parse_dataset] answers 400 exactly when the dataset argument is
    missing or empty or one of the three numbers does not parse; a 400 is
    always given before any connection is opened. *)
Theorem parse_dataset_client_errors args :
  let r := run (parse_dataset py_int now db args) in
  (status_of r = 400 ↔
     args !! "dataset" = None ∨ args !! "dataset" = Some ""
     ∨ ∃ msg, pagination_params py_int args = inl msg)
  ∧ (status_of r = 400 → trace_of r = []).
Proof.
  destruct (args !! "dataset") as [[|c0 dataset]|] eqn:Hdataset;
    [use_answers; naive_solver| |use_answers; naive_solver].
  destruct (pagination_params py_int args) as [msg|[[page page_size] days]]
    eqn:Hparams; [use_answers; naive_solver|].
  destruct (date_threshold_of now days) as [e|date_threshold] eqn:Hthreshold;
    [use_answers; naive_solver|].
  destruct (db_connect db) as [e|] eqn:Hconnect; [use_answers; naive_solver|].
  destruct (db_select_one db) as [e|] eqn:Hselect; [use_answers; naive_solver|].
  destruct (db_opt_owl_count db (String c0 dataset)) as [e|n] eqn:Hfound;
    [use_answers; naive_solver|].
  destruct (n =? 0) eqn:Hzero; [use_answers; naive_solver|].
  destruct (db_rule_breaks_count db (String c0 dataset) date_threshold)
    as [e|total] eqn:Htotal; [use_answers; naive_solver|].
  destruct (db_header_rows db (String c0 dataset))
    as [e|[|[headers|] rows]] eqn:Hrows; try (use_answers; naive_solver).
  use_answers. destruct (db_parse_rows db _ _ _ _ _); simpl; naive_solver.
Qed.

(** X6. The three numbers are read in the order [page], [pageSize],
    [days], and the first that does not parse decides the message; the
    answer is 400 with that message after a fixed prefix, and later
    arguments are not looked at. *)
Theorem pagination_first_error args (dataset msg : string) :
  args !! "dataset" = Some dataset → dataset ≠ "" →
  (int_of_arg py_int args "page" 1 = inl msg
   ∨ (∃ p, int_of_arg py_int args "page" 1 = inr p
           ∧ int_of_arg py_int args "pageSize" 100 = inl msg)
   ∨ (∃ p s, int_of_arg py_int args "page" 1 = inr p
             ∧ int_of_arg py_int args "pageSize" 100 = inr s
             ∧ int_of_arg py_int args "days" 1 = inl msg)) →
  run (parse_dataset py_int now db args)
  = ((400, JObj [("error", JStr ("Invalid pagination parameters: " +:+ msg))]), []).
Proof.
  intros Hdataset Hne Hfirst.
  destruct dataset as [|c0 dataset]; [done|].
  assert (Hparams : pagination_params py_int args = inl msg).
  { unfold pagination_params.
    destruct Hfirst as [->|[(p & -> & ->)|(p & s & -> & -> & ->)]]; done. }
  by use_answers.
Qed.

Lemma date_threshold_of_inr (days date_threshold : Z) :
  date_threshold_of now days = inr date_threshold →
  date_threshold = now - days * microseconds_per_day
  ∧ 0 ≤ date_threshold ≤ datetime_max.
Proof.
  unfold date_threshold_of.
  destruct (Z.abs days <=? 999999999); [|done].
  destruct (0 <=? now - days * microseconds_per_day) eqn:Hlow; [|done].
  destruct (now - days * microseconds_per_day <=? datetime_max) eqn:Hhigh; [|done].
  simpl. intros [= <-]. lia.
Qed.

(** X7. A window reaching back before the first representable date is not
    a client error: when the validated [days] would put the threshold
    before [datetime.min], the answer is 500 with type [OverflowError], and
    no connection is opened. *)
Theorem parse_dataset_threshold_overflow args (dataset : string)
    (page page_size days : Z) :
  args !! "dataset" = Some dataset → dataset ≠ "" →
  pagination_params py_int args = inr (page, page_size, days) →
  now < days * microseconds_per_day →
  let r := run (parse_dataset py_int now db args) in
  status_of r = 500
  ∧ json_get "type" (body_of r) = Some (JStr "OverflowError")
  ∧ trace_of r = [].
Proof.
  intros Hdataset Hne Hparams Hearly.
  destruct dataset as [|c0 dataset]; [done|].
  destruct (date_threshold_of now days) as [e|t] eqn:Hthreshold.
  - assert (exn_class e = OverflowError) as Hclass.
    { unfold date_threshold_of in Hthreshold.
      repeat case_match; simplify_eq; done. }
    use_answers. unfold json_get, exn_type_name. simpl. by rewrite Hclass.
  - apply date_threshold_of_inr in Hthreshold. lia.
Qed.

End ParseValidation.

(** The request [days=999999999] at the sample time. *)
Lemma parse_dataset_threshold_overflow_example :
  let r := run (parse_dataset decimal_int sample_now (quiet_db 0)
                  {[ "dataset" := "ds"; "days" := "999999999" ]}) in
  status_of r = 500
  ∧ json_get "type" (body_of r) = Some (JStr "OverflowError")
  ∧ trace_of r = [].
Proof.
  apply (parse_dataset_threshold_overflow decimal_int sample_now (quiet_db 0)
           {[ "dataset" := "ds"; "days" := "999999999" ]} "ds" 1 100 999999999);
    [vm_compute; reflexivity|discriminate|vm_compute; reflexivity
    |vm_compute; reflexivity].
Defined.

(** The request [page=1&pageSize=abc&days=x]: [pageSize] decides. *)
Lemma pagination_first_error_example :
  run (parse_dataset decimal_int sample_now (quiet_db 0)
         {[ "dataset" := "ds"; "page" := "1"; "pageSize" := "abc"; "days" := "x" ]})
  = ((400, JObj [("error",
        JStr ("Invalid pagination parameters: "
              +:+ "invalid literal for int() with base 10: 'abc'"))]), []).
Proof.
  apply (pagination_first_error decimal_int sample_now (quiet_db 0)
           {[ "dataset" := "ds"; "page" := "1"; "pageSize" := "abc"; "days" := "x" ]}
           "ds"); [vm_compute; reflexivity|discriminate|].
  right. left. exists 1. split; vm_compute; reflexivity.
Defined.

(** ** [parse_dataset]: the queries it sends *)

Section ParseFlow.

Variable py_int : string → string + Z.
Variable now : Z.
Implicit Types args : gmap string string.
Implicit Types db : Db.

(** X8. An unknown dataset costs one query: when [opt_owl] has no row for
    the dataset the answer is 404 with the dataset name in the message, and
    after the existence check nothing else is sent before the connection is
    closed. *)
Theorem parse_dataset_unknown_dataset db args (dataset : string)
    (page page_size days date_threshold : Z) (opt_owl : list OptOwlRow) :
  args !! "dataset" = Some dataset → dataset ≠ "" →
  pagination_params py_int args = inr (page, page_size, days) →
  date_threshold_of now days = inr date_threshold →
  db_connect db = None →
  db_select_one db = None →
  (∀ r, r ∈ opt_owl → row_dataset r ≠ dataset) →
  run (parse_dataset py_int now (with_opt_owl opt_owl db) args)
  = ((404, JObj [("error", JStr ("Dataset '" +:+ dataset +:+ "' not found"))]),
     [Open 0%nat; Exec 0%nat SelectOne; Exec 0%nat (VerifyDatasetSql dataset);
      Close 0%nat]).
Proof.
  intros Hdataset Hne Hparams Hthreshold Hconnect Hselect Hrows.
  destruct dataset as [|c0 dataset]; [done|].
  apply opt_owl_count_zero in Hrows.
  unfold_handler. rewrite Hdataset, Hparams. unfold_handler.
  rewrite Hthreshold. unfold_handler. rewrite Hconnect. unfold_handler.
  rewrite Hselect. unfold_handler. rewrite Hrows. done.
Qed.

(** X9. A request that gets through: the four statements are sent in the
    order existence check, count, headers, parse query, the parse query
    carries the page size as LIMIT and [(page - 1) * page_size] as OFFSET,
    and the answer echoes [page], [pageSize], the count and
    [totalPages], the rows and the bound parameters. *)
Theorem parse_dataset_success db args (dataset : string)
    (page page_size days date_threshold found total : Z)
    (headers : list string) (more : list (option (list string))) (df : Frame) :
  args !! "dataset" = Some dataset → dataset ≠ "" →
  pagination_params py_int args = inr (page, page_size, days) →
  date_threshold_of now days = inr date_threshold →
  db_connect db = None →
  db_select_one db = None →
  db_opt_owl_count db dataset = inr found → found ≠ 0 →
  db_rule_breaks_count db dataset date_threshold = inr total →
  db_header_rows db dataset = inr (Some headers :: more) →
  db_parse_rows db (columns_sql headers) dataset date_threshold page_size
    (page_offset page page_size) = inr df →
  let r := run (parse_dataset py_int now db args) in
  status_of r = 200
  ∧ trace_of r
    = [Open 0%nat; Exec 0%nat SelectOne; Exec 0%nat (VerifyDatasetSql dataset);
       Exec 0%nat (CountBreaksSql dataset date_threshold);
       Exec 0%nat (HeadersSql dataset);
       Exec 0%nat (ParseSql (columns_sql headers) dataset date_threshold page_size
                     (page_offset page page_size));
       Close 0%nat]
  ∧ json_get "columns" (body_of r) = Some (JList (JStr <$> resolved_columns headers))
  ∧ json_get "rows" (body_of r) = Some (JList df)
  ∧ json_get "pagination" (body_of r)
    = Some (JObj [("page", JInt page); ("pageSize", JInt page_size);
                  ("totalCount", JInt total);
                  ("totalPages", JInt (total_pages total page_size))])
  ∧ json_get "parameters" (body_of r)
    = Some (JObj [("dataset", JStr dataset); ("date_threshold", JDateTime date_threshold);
                  ("page_size", JInt page_size);
                  ("offset", JInt (page_offset page page_size))]).
Proof.
  intros Hdataset Hne Hparams Hthreshold Hconnect Hselect Hfound Hnonzero
    Htotal Hheaders Hrows.
  destruct dataset as [|c0 dataset]; [done|].
  apply Z.eqb_neq in Hnonzero.
  unfold_handler. rewrite Hdataset, Hparams. unfold_handler.
  rewrite Hthreshold. unfold_handler. rewrite Hconnect. unfold_handler.
  rewrite Hselect. unfold_handler. rewrite Hfound. unfold_handler.
  rewrite Hnonzero. unfold_handler. rewrite Htotal. unfold_handler.
  rewrite Hheaders. unfold_handler. rewrite Hrows. unfold_handler.
  split_and!; reflexivity.
Qed.

(** X10. A header row whose [linkid] is NULL is neither "not found" nor
    "no headers": the header column is NULL, iterating over it raises
    [TypeError], the answer is 500, the parse query is not sent and the
    connection is closed. *)
Theorem parse_dataset_null_header db args (dataset : string)
    (page page_size days date_threshold total : Z)
    (opt_owl others : list OptOwlRow) :
  args !! "dataset" = Some dataset → dataset ≠ "" →
  pagination_params py_int args = inr (page, page_size, days) →
  date_threshold_of now days = inr date_threshold →
  db_connect db = None →
  db_select_one db = None →
  filter (fun r => row_dataset r = dataset) opt_owl
    = {| row_dataset := dataset; row_linkid := None |} :: others →
  db_rule_breaks_count db dataset date_threshold = inr total →
  let r := run (parse_dataset py_int now (with_opt_owl opt_owl db) args) in
  status_of r = 500
  ∧ json_get "type" (body_of r) = Some (JStr "TypeError")
  ∧ trace_of r
    = [Open 0%nat; Exec 0%nat SelectOne; Exec 0%nat (VerifyDatasetSql dataset);
       Exec 0%nat (CountBreaksSql dataset date_threshold);
       Exec 0%nat (HeadersSql dataset); Close 0%nat].
Proof.
  intros Hdataset Hne Hparams Hthreshold Hconnect Hselect Hrow Htotal.
  destruct dataset as [|c0 dataset]; [done|].
  unfold_handler. rewrite Hdataset, Hparams. unfold_handler.
  rewrite Hthreshold. unfold_handler. rewrite Hconnect. unfold_handler.
  rewrite Hselect. unfold_handler.
  unfold opt_owl_count, opt_owl_header_rows. rewrite Hrow.
  unfold_handler. rewrite Htotal. unfold_handler.
  split_and!; reflexivity.
Qed.

(** X11. Whatever the request and whatever the database answers, a parse
    query that is sent is sent for the requested dataset, with a LIMIT
    between 1 and 1000, an OFFSET that is a non-negative multiple of the
    LIMIT, and a threshold at least one day before [now]; it comes after
    the existence check, the count and the header query, and the
    connection is closed after it. *)
Theorem parse_query_parameters db args c (columns dataset : string)
    (date_threshold page_size offset : Z) :
  Exec c (ParseSql columns dataset date_threshold page_size offset)
    ∈ trace_of (run (parse_dataset py_int now db args)) →
  args !! "dataset" = Some dataset
  ∧ 1 ≤ page_size ≤ 1000
  ∧ 0 ≤ offset ∧ (∃ pages_before, offset = pages_before * page_size)
  ∧ date_threshold ≤ now - microseconds_per_day
  ∧ trace_of (run (parse_dataset py_int now db args))
    = [Open 0%nat; Exec 0%nat SelectOne; Exec 0%nat (VerifyDatasetSql dataset);
       Exec 0%nat (CountBreaksSql dataset date_threshold);
       Exec 0%nat (HeadersSql dataset);
       Exec 0%nat (ParseSql columns dataset date_threshold page_size offset);
       Close 0%nat].
Proof.
  destruct (args !! "dataset") as [[|c0 ds]|] eqn:Hdataset;
    [use_answers; intros Hin; in_log Hin| |use_answers; intros Hin; in_log Hin].
  destruct (pagination_params py_int args) as [msg|[[page size] days]]
    eqn:Hparams; [use_answers; intros Hin; in_log Hin|].
  destruct (date_threshold_of now days) as [e|threshold] eqn:Hthreshold;
    [use_answers; intros Hin; in_log Hin|].
  destruct (db_connect db) as [e|] eqn:Hconnect;
    [use_answers; intros Hin; in_log Hin|].
  destruct (db_select_one db) as [e|] eqn:Hselect;
    [use_answers; intros Hin; in_log Hin|].
  destruct (db_opt_owl_count db (String c0 ds)) as [e|n] eqn:Hfound;
    [use_answers; intros Hin; in_log Hin|].
  destruct (n =? 0) eqn:Hzero; [use_answers; intros Hin; in_log Hin|].
  destruct (db_rule_breaks_count db (String c0 ds) threshold)
    as [e|total] eqn:Htotal; [use_answers; intros Hin; in_log Hin|].
  destruct (db_header_rows db (String c0 ds))
    as [e|[|[headers|] rows]] eqn:Hrows;
    try solve [use_answers; intros Hin; in_log Hin].
  apply pagination_params_inv in Hparams as Hinv.
  destruct Hinv as (p & s & d & _ & _ & _ & -> & -> & ->).
  destruct (date_threshold_of_inr now _ _ Hthreshold) as [Hvalue _].
  pose proof (effective_page_size_range s) as Hsize.
  use_answers.
  destruct (db_parse_rows db _ _ _ _ _); simpl; intros Hin; in_log Hin;
    injection Hin as -> -> -> -> -> ->;
    (split_and!; [done|lia|lia| |by exists (at_least_one p - 1)| |done]);
    unfold page_offset, at_least_one, microseconds_per_day in *; nia.
Qed.

End ParseFlow.

(** The dataset [ds] is asked for and [opt_owl] only knows [other]. *)
Lemma parse_dataset_unknown_dataset_example :
  run (parse_dataset decimal_int sample_now
         (with_opt_owl [ {| row_dataset := "other"; row_linkid := Some "A~|B" |} ]
            (quiet_db 0))
         {[ "dataset" := "ds" ]})
  = ((404, JObj [("error", JStr ("Dataset '" +:+ "ds" +:+ "' not found"))]),
     [Open 0%nat; Exec 0%nat SelectOne; Exec 0%nat (VerifyDatasetSql "ds");
      Close 0%nat]).
Proof.
  apply (parse_dataset_unknown_dataset decimal_int sample_now (quiet_db 0)
           {[ "dataset" := "ds" ]} "ds" 1 100 1
           (sample_now - microseconds_per_day));
    [vm_compute; reflexivity|discriminate|vm_compute; reflexivity
    |vm_compute; reflexivity|reflexivity|reflexivity|].
  intros r [->|Hr]%elem_of_cons; [discriminate|by apply elem_of_nil in Hr].
Defined.

(** Page 3 of 50 rows each of the dataset [ds], 120 rows in the window. *)
Lemma parse_dataset_success_example :
  let args : gmap string string :=
    {[ "dataset" := "ds"; "page" := "3"; "pageSize" := "50" ]} in
  let db := with_opt_owl [ {| row_dataset := "ds"; row_linkid := Some "A~|B" |} ]
              (quiet_db 0) in
  let date_threshold := sample_now - microseconds_per_day in
  let r := run (parse_dataset decimal_int sample_now db args) in
  status_of r = 200
  ∧ trace_of r
    = [Open 0%nat; Exec 0%nat SelectOne; Exec 0%nat (VerifyDatasetSql "ds");
       Exec 0%nat (CountBreaksSql "ds" date_threshold);
       Exec 0%nat (HeadersSql "ds");
       Exec 0%nat (ParseSql (columns_sql ["A"; "B"]) "ds" date_threshold 50
                     (page_offset 3 50));
       Close 0%nat]
  ∧ json_get "columns" (body_of r) = Some (JList (JStr <$> resolved_columns ["A"; "B"]))
  ∧ json_get "rows" (body_of r) = Some (JList [])
  ∧ json_get "pagination" (body_of r)
    = Some (JObj [("page", JInt 3); ("pageSize", JInt 50);
                  ("totalCount", JInt 0);
                  ("totalPages", JInt (total_pages 0 50))])
  ∧ json_get "parameters" (body_of r)
    = Some (JObj [("dataset", JStr "ds"); ("date_threshold", JDateTime date_threshold);
                  ("page_size", JInt 50);
                  ("offset", JInt (page_offset 3 50))]).
Proof.
  apply (parse_dataset_success decimal_int sample_now
           (with_opt_owl [ {| row_dataset := "ds"; row_linkid := Some "A~|B" |} ]
              (quiet_db 0))
           {[ "dataset" := "ds"; "page" := "3"; "pageSize" := "50" ]}
           "ds" 3 50 1 (sample_now - microseconds_per_day) 1 0 ["A"; "B"] [] []);
    try (vm_compute; reflexivity); discriminate.
Defined.

(** The dataset [ds] whose row has no [linkid]. *)
Lemma parse_dataset_null_header_example :
  let r := run (parse_dataset decimal_int sample_now
                  (with_opt_owl [ {| row_dataset := "ds"; row_linkid := None |} ]
                     (quiet_db 0))
                  {[ "dataset" := "ds" ]}) in
  status_of r = 500
  ∧ json_get "type" (body_of r) = Some (JStr "TypeError")
  ∧ trace_of r
    = [Open 0%nat; Exec 0%nat SelectOne; Exec 0%nat (VerifyDatasetSql "ds");
       Exec 0%nat (CountBreaksSql "ds" (sample_now - microseconds_per_day));
       Exec 0%nat (HeadersSql "ds"); Close 0%nat].
Proof.
  apply (parse_dataset_null_header decimal_int sample_now (quiet_db 0)
           {[ "dataset" := "ds" ]} "ds" 1 100 1
           (sample_now - microseconds_per_day) 0
           [ {| row_dataset := "ds"; row_linkid := None |} ] []);
    try (vm_compute; reflexivity); discriminate.
Defined.

(** Page 3 of 50 rows each. *)
Lemma parse_query_parameters_example :
  let args : gmap string string :=
    {[ "dataset" := "ds"; "page" := "3"; "pageSize" := "50" ]} in
  let db := with_opt_owl [ {| row_dataset := "ds"; row_linkid := Some "A~|B" |} ]
              (quiet_db 0) in
  let date_threshold := sample_now - microseconds_per_day in
  args !! "dataset" = Some "ds"
  ∧ 1 ≤ 50 ≤ 1000
  ∧ 0 ≤ 100 ∧ (∃ pages_before, 100 = pages_before * 50)
  ∧ date_threshold ≤ sample_now - microseconds_per_day
  ∧ trace_of (run (parse_dataset decimal_int sample_now db args))
    = [Open 0%nat; Exec 0%nat SelectOne; Exec 0%nat (VerifyDatasetSql "ds");
       Exec 0%nat (CountBreaksSql "ds" date_threshold);
       Exec 0%nat (HeadersSql "ds");
       Exec 0%nat (ParseSql "d.value[1] AS A, d.value[2] AS B" "ds"
                     date_threshold 50 100);
       Close 0%nat].
Proof.
  apply (parse_query_parameters decimal_int sample_now
           (with_opt_owl [ {| row_dataset := "ds"; row_linkid := Some "A~|B" |} ]
              (quiet_db 0))
           {[ "dataset" := "ds"; "page" := "3"; "pageSize" := "50" ]}
           0%nat "d.value[1] AS A, d.value[2] AS B" "ds"
           (sample_now - microseconds_per_day) 50 100).
  apply (list_elem_of_lookup_2 _ 5). vm_compute. reflexivity.
Defined.

(** ** [get_dashboard_health]: dispatch and collection *)

Section HealthDispatch.

Variable py_int : string → string + Z.
Variable db : Db.
Implicit Types args : gmap string string.


(** X13. When several aggregate queries fail, the answer reports the one
    that comes first in dictionary order ([globalHealth], [timeSeries],
    [dimensions], [businessUnits]), whatever the others did; with no
    failure the answer is 200. *)
Theorem health_reports_first_failure args (days count : Z) :
  int_of_arg py_int args "days" 2 = inr days →
  db_connect db = None →
  db_select_one db = None →
  db_rule_output_count db days = inr count → count ≠ 0 →
  let r := run (get_dashboard_health py_int db args) in
  match first_exception ((fun name => db_aggregate db name days) <$> query_names) with
  | Some e => r.1 = error_envelope e
  | None => status_of r = 200
  end.
Proof.
  intros Hdays Hconnect Hselect Hcount Hnonzero.
  apply Z.eqb_neq in Hnonzero. use_answers.
  destruct (db_aggregate db "globalHealth" days) as [e1|f1],
           (db_aggregate db "timeSeries" days) as [e2|f2],
           (db_aggregate db "dimensions" days) as [e3|f3],
           (db_aggregate db "businessUnits" days) as [e4|f4]; simpl; try done.
Qed.

Lemma timings_json_four (t1 t2 t3 t4 : Z) :
  let timings :=
    timings_json (<["businessUnits":=t4]> (<["dimensions":=t3]>
      (<["timeSeries":=t2]> (<["globalHealth":=t1]> ∅)))) in
  json_keys timings ≡ₚ query_names
  ∧ json_get "globalHealth" timings = Some (JSeconds t1)
  ∧ json_get "timeSeries" timings = Some (JSeconds t2)
  ∧ json_get "dimensions" timings = Some (JSeconds t3)
  ∧ json_get "businessUnits" timings = Some (JSeconds t4).
Proof.
  intros timings.
  assert (Heq : timings
            = JObj [("globalHealth", JSeconds t1); ("businessUnits", JSeconds t4);
                    ("timeSeries", JSeconds t2); ("dimensions", JSeconds t3)])
    by (vm_compute; reflexivity).
  rewrite Heq. split_and!; try reflexivity.
  unfold json_keys, query_names. simpl. apply perm_skip.
  etrans; [apply Permutation_swap|]. apply perm_skip. apply Permutation_swap.
Qed.

(** X14. A 200 answer times each query: [queryTimings] has exactly the
    four query names as keys, each bound to the time measured for that
    query. *)
Theorem health_timings_cover_queries args :
  let r := run (get_dashboard_health py_int db args) in
  status_of r = 200 →
  ∃ timings,
    json_get "queryTimings" (body_of r) = Some timings
    ∧ json_keys timings ≡ₚ query_names
    ∧ ∀ key, key ∈ query_names →
        json_get key timings = Some (JSeconds (db_elapsed db key)).
Proof.
  destruct (int_of_arg py_int args "days" 2) as [msg|days] eqn:Hdays;
    [by use_answers|].
  destruct (db_connect db) as [e0|] eqn:Hconnect; [by use_answers|].
  destruct (db_select_one db) as [e0|] eqn:Hselect; [by use_answers|].
  destruct (db_rule_output_count db days) as [e0|n] eqn:Hcount; [by use_answers|].
  destruct (n =? 0) eqn:Hzero; [by use_answers|].
  use_answers.
  destruct (db_aggregate db "globalHealth" days) as [e1|f1],
           (db_aggregate db "timeSeries" days) as [e2|f2],
           (db_aggregate db "dimensions" days) as [e3|f3],
           (db_aggregate db "businessUnits" days) as [e4|f4]; simpl; try done.
  destruct (results_lookup f1 f2 f3 f4) as (-> & -> & -> & ->). simpl.
  intros _.
  destruct (timings_json_four (db_elapsed db "globalHealth")
              (db_elapsed db "timeSeries") (db_elapsed db "dimensions")
              (db_elapsed db "businessUnits")) as (Hkeys & H1 & H2 & H3 & H4).
  eexists. split; [reflexivity|]. split; [exact Hkeys|].
  intros key Hkey. each_key Hkey; assumption.
Qed.

End HealthDispatch.


(** The default request with [dimensions] failing. *)
Lemma health_reports_first_failure_example :
  let db := failing_aggregate_db "dimensions" in
  let r := run (get_dashboard_health decimal_int db ∅) in
  match first_exception ((fun name => db_aggregate db name 2) <$> query_names) with
  | Some e => r.1 = error_envelope e
  | None => status_of r = 200
  end.
Proof.
  apply (health_reports_first_failure decimal_int (failing_aggregate_db "dimensions")
           ∅ 2 7); [reflexivity|reflexivity|reflexivity|reflexivity|discriminate].
Defined.

(** The default request against a database with facts. *)
Lemma health_timings_cover_queries_example :
  let r := run (get_dashboard_health decimal_int (quiet_db 3) ∅) in
  ∃ timings,
    json_get "queryTimings" (body_of r) = Some timings
    ∧ json_keys timings ≡ₚ query_names
    ∧ ∀ key, key ∈ query_names →
        json_get key timings = Some (JSeconds (db_elapsed (quiet_db 3) key)).
Proof.
  apply (health_timings_cover_queries decimal_int (quiet_db 3) ∅).
  vm_compute. reflexivity.
Defined.

(** ** [days] on the three endpoints *)

Section Days.

Variable py_int : string → string + Z.
Variable now : Z.
Variable db : Db.
Implicit Types args : gmap string string.

(** X15. Only [parse_dataset] turns a [days] that does not parse into a
    client error: [get_dashboard_health] and [get_datasets] answer 500 with
    the text of the [ValueError], and none of the three opens a
    connection. *)
Theorem unparsable_days args (text msg dataset : string) :
  args !! "days" = Some text →
  py_int text = inl msg →
  run (get_dashboard_health py_int db args)
    = (error_envelope {| exn_class := ValueError; exn_message := msg |}, [])
  ∧ run (get_datasets py_int now db args)
    = (error_only {| exn_class := ValueError; exn_message := msg |}, [])
  ∧ (args !! "dataset" = Some dataset → dataset ≠ "" →
     status_of (run (parse_dataset py_int now db args)) = 400
     ∧ trace_of (run (parse_dataset py_int now db args)) = []).
Proof.
  intros Harg Hint.
  assert (Hdays : ∀ default, int_of_arg py_int args "days" default = inl msg).
  { intros default. unfold int_of_arg. by rewrite Harg. }
  split_and!.
  - pose proof (Hdays 2). by use_answers.
  - pose proof (Hdays 1). by use_answers.
  - intros Hdataset Hne. destruct dataset as [|c0 dataset]; [done|].
    assert (∃ m, pagination_params py_int args = inl m) as [m Hparams].
    { unfold pagination_params. rewrite (Hdays 1). repeat case_match; eauto. }
    by use_answers.
Qed.

(** X16. [get_datasets] does not clamp [days]: zero or a negative number
    is accepted, the listing query is sent with a threshold that is not
    before [now], and the rows are returned as they are with status 200. *)
Theorem get_datasets_accepts_any_days args (days : Z) (df : Frame) :
  int_of_arg py_int args "days" 1 = inr days →
  days ≤ 0 →
  now - days * microseconds_per_day ≤ datetime_max → 0 ≤ now →
  Z.abs days ≤ 999999999 →
  db_connect db = None →
  db_select_one db = None →
  db_datasets db (now - days * microseconds_per_day) = inr df →
  now ≤ now - days * microseconds_per_day
  ∧ run (get_datasets py_int now db args)
    = ((200, JList df),
       [Open 0%nat; Exec 0%nat SelectOne;
        Exec 0%nat (DatasetsSql (now - days * microseconds_per_day));
        Close 0%nat]).
Proof.
  intros Hdays Hnonpos Hmax Hnow Hrange Hconnect Hselect Hrows.
  assert (Hthreshold : date_threshold_of now days
                       = inr (now - days * microseconds_per_day)).
  { unfold date_threshold_of.
    destruct (Z.leb_spec (Z.abs days) 999999999); [|lia].
    destruct (Z.leb_spec 0 (now - days * microseconds_per_day));
      [|unfold microseconds_per_day in *; lia].
    destruct (Z.leb_spec (now - days * microseconds_per_day) datetime_max); [done|lia]. }
  split; [unfold microseconds_per_day; lia|].
  by use_answers.
Qed.

End Days.

(** The request [days=abc]. *)
Lemma unparsable_days_example :
  let args : gmap string string := {[ "dataset" := "ds"; "days" := "abc" ]} in
  let msg := "invalid literal for int() with base 10: 'abc'" in
  run (get_dashboard_health decimal_int (quiet_db 3) args)
    = (error_envelope {| exn_class := ValueError; exn_message := msg |}, [])
  ∧ run (get_datasets decimal_int sample_now (quiet_db 3) args)
    = (error_only {| exn_class := ValueError; exn_message := msg |}, [])
  ∧ (args !! "dataset" = Some "ds" → "ds" ≠ "" →
     status_of (run (parse_dataset decimal_int sample_now (quiet_db 3) args)) = 400
     ∧ trace_of (run (parse_dataset decimal_int sample_now (quiet_db 3) args)) = []).
Proof.
  apply (unparsable_days decimal_int sample_now (quiet_db 3)
           {[ "dataset" := "ds"; "days" := "abc" ]} "abc");
    vm_compute; reflexivity.
Defined.

(** The request [days=-7]. *)
Lemma get_datasets_accepts_any_days_example :
  sample_now ≤ sample_now - -7 * microseconds_per_day
  ∧ run (get_datasets decimal_int sample_now (quiet_db 3) {[ "days" := "-7" ]})
    = ((200, JList []),
       [Open 0%nat; Exec 0%nat SelectOne;
        Exec 0%nat (DatasetsSql (sample_now - -7 * microseconds_per_day));
        Close 0%nat]).
Proof.
  apply (get_datasets_accepts_any_days decimal_int sample_now (quiet_db 3)
           {[ "days" := "-7" ]} (-7) []);
    try (vm_compute; reflexivity); vm_compute; discriminate.
Defined.

(** ** [get_schema] *)

Section Schema.

Variable db : Db.

(** X17. [get_schema] reads the three tables one after the other and stops
    at the first failure: a table is queried only when the tables before it
    were read, the answer is 500 with the text of the first failure or 200
    with the three column lists, and the connection is closed at the
    end. *)
Theorem get_schema_stops_at_first_failure :
  db_connect db = None →
  db_select_one db = None →
  let r := run (get_schema db) in
  let scan := db_schema_columns db "dataset_scan" in
  let schema := db_schema_columns db "dataset_schema" in
  let catalog := db_schema_columns db "owl_catalog" in
  Exec 0%nat (SchemaSql "dataset_scan") ∈ trace_of r
  ∧ (Exec 0%nat (SchemaSql "dataset_schema") ∈ trace_of r ↔ ∃ rows, scan = inr rows)
  ∧ (Exec 0%nat (SchemaSql "owl_catalog") ∈ trace_of r ↔
       (∃ rows, scan = inr rows) ∧ (∃ rows, schema = inr rows))
  ∧ match first_exception [scan; schema; catalog] with
    | Some e => r.1 = error_only e
    | None =>
        status_of r = 200
        ∧ ∀ table, table ∈ ["dataset_scan"; "dataset_schema"; "owl_catalog"] →
            ∃ rows, db_schema_columns db table = inr rows
                    ∧ json_get table (body_of r) = Some (schema_json rows)
    end
  ∧ last (trace_of r) = Some (Close 0%nat).
Proof.
  intros Hconnect Hselect r scan schema catalog.
  unfold r, scan, schema, catalog. clear r scan schema catalog.
  use_answers.
  destruct (db_schema_columns db "dataset_scan") as [e1|rows1] eqn:H1; simpl.
  { split_and!; [set_solver| | |done|done].
    - split; [intros Hin; in_log Hin|intros [? [= ]]].
    - split; [intros Hin; in_log Hin|intros [[? [= ]] _]]. }
  destruct (db_schema_columns db "dataset_schema") as [e2|rows2] eqn:H2; simpl.
  { split_and!; [set_solver| | |done|done].
    - split; [eauto|set_solver].
    - split; [intros Hin; in_log Hin|intros [_ [? [= ]]]]. }
  destruct (db_schema_columns db "owl_catalog") as [e3|rows3] eqn:H3; simpl.
  { split_and!; [set_solver| | |done|done].
    - split; [eauto|set_solver].
    - split; [eauto|set_solver]. }
  split_and!; [set_solver| | |done| |done].
  - split; [eauto|set_solver].
  - split; [eauto|set_solver].
  - intros table Htable.
    repeat (apply elem_of_cons in Htable as [->|Htable]);
      [eauto..|by apply elem_of_nil in Htable].
Qed.

End Schema.

(** The column query of [dataset_schema] fails. *)
Lemma get_schema_stops_at_first_failure_example :
  let db := failing_schema_db "dataset_schema" in
  let r := run (get_schema db) in
  let scan := db_schema_columns db "dataset_scan" in
  let schema := db_schema_columns db "dataset_schema" in
  let catalog := db_schema_columns db "owl_catalog" in
  Exec 0%nat (SchemaSql "dataset_scan") ∈ trace_of r
  ∧ (Exec 0%nat (SchemaSql "dataset_schema") ∈ trace_of r ↔ ∃ rows, scan = inr rows)
  ∧ (Exec 0%nat (SchemaSql "owl_catalog") ∈ trace_of r ↔
       (∃ rows, scan = inr rows) ∧ (∃ rows, schema = inr rows))
  ∧ match first_exception [scan; schema; catalog] with
    | Some e => r.1 = error_only e
    | None =>
        status_of r = 200
        ∧ ∀ table, table ∈ ["dataset_scan"; "dataset_schema"; "owl_catalog"] →
            ∃ rows, db_schema_columns db table = inr rows
                    ∧ json_get table (body_of r) = Some (schema_json rows)
    end
  ∧ last (trace_of r) = Some (Close 0%nat).
Proof.
  apply (get_schema_stops_at_first_failure (failing_schema_db "dataset_schema"));
    reflexivity.
Defined.

(** ** Calls of [close] *)

Section Closing.

Variable py_int : string → string + Z.
Variable now : Z.
Variable db : Db.
Implicit Types args : gmap string string.

(** X21. A connection whose [SELECT 1] test fails is handed to no handler,
    and no handler calls [close] on it: on every endpoint the log is empty
    (the request was refused before connecting) or stops after the test,
    and the answer is not a success. *)
Theorem failed_connection_test_is_not_closed args (e : Exn) :
  db_connect db = None →
  db_select_one db = Some e →
  ∀ r, r ∈ [ run (get_datasets py_int now db args);
             run (parse_dataset py_int now db args);
             run (get_dashboard_health py_int db args);
             run (get_schema db) ] →
    status_of r ≠ 200
    ∧ (trace_of r = [] ∨ trace_of r = [Open 0%nat; Exec 0%nat SelectOne]).
Proof.
  intros Hconnect Hselect r Hr.
  repeat (apply elem_of_cons in Hr as [->|Hr]); [| | | |by apply elem_of_nil in Hr].
  - destruct (int_of_arg py_int args "days" 1) as [msg|days] eqn:Hdays;
      [use_answers; naive_solver|].
    destruct (date_threshold_of now days) as [e0|t] eqn:Hthreshold;
      use_answers; naive_solver.
  - destruct (args !! "dataset") as [[|c0 dataset]|] eqn:Hdataset;
      [use_answers; naive_solver| |use_answers; naive_solver].
    destruct (pagination_params py_int args) as [msg|[[page page_size] days]]
      eqn:Hparams; [use_answers; naive_solver|].
    destruct (date_threshold_of now days) as [e0|t] eqn:Hthreshold;
      use_answers; naive_solver.
  - destruct (int_of_arg py_int args "days" 2) as [msg|days] eqn:Hdays;
      use_answers; naive_solver.
  - use_answers. naive_solver.
Qed.

End Closing.

(** The default requests against a database whose test query fails. *)
Lemma failed_connection_test_is_not_closed_example :
  let datasets := run (get_datasets decimal_int sample_now failing_test_db ∅) in
  let parse := run (parse_dataset decimal_int sample_now failing_test_db ∅) in
  let health := run (get_dashboard_health decimal_int failing_test_db ∅) in
  let schema := run (get_schema failing_test_db) in
  (status_of datasets ≠ 200
   ∧ (trace_of datasets = [] ∨ trace_of datasets = [Open 0%nat; Exec 0%nat SelectOne]))
  ∧ (status_of parse ≠ 200
     ∧ (trace_of parse = [] ∨ trace_of parse = [Open 0%nat; Exec 0%nat SelectOne]))
  ∧ (status_of health ≠ 200
     ∧ (trace_of health = [] ∨ trace_of health = [Open 0%nat; Exec 0%nat SelectOne]))
  ∧ (status_of schema ≠ 200
     ∧ (trace_of schema = [] ∨ trace_of schema = [Open 0%nat; Exec 0%nat SelectOne])).
Proof.
  intros datasets parse health schema.
  pose proof (failed_connection_test_is_not_closed decimal_int sample_now
                failing_test_db ∅ connection_lost eq_refl eq_refl) as Hall.
  split_and!; apply Hall; rewrite !elem_of_cons; auto.
Defined.


(** ** The status CASE: what stays without a status *)

Lemma some_such_that {A} (x : A) (P : A → Prop) :
  (∃ y, Some x = Some y ∧ P y) ↔ P x.
Proof. split; [by intros (y & [= <-] & ?)|by exists x]. Qed.

Lemma none_such_that {A} (P : A → Prop) :
  (∃ y, None = Some y ∧ P y) ↔ False.
Proof. split; [by intros (y & [= ] & ?)|done]. Qed.

Lemma some_is {A} (x y : A) : Some x = Some y ↔ x = y.
Proof. split; [by intros [= ]|by intros ->]. Qed.

Lemma some_is_none {A} (x : A) : Some x = None ↔ False.
Proof. split; [by intros [= ]|done]. Qed.

Lemma none_is_some {A} (x : A) : None = Some x ↔ False.
Proof. split; [by intros [= ]|done]. Qed.

Lemma none_is_none {A} : @None A = None ↔ True.
Proof. done. Qed.

Lemma pass_fail_exception_none (a : RuleOutput) :
  pass_fail_exception a = None ↔
  ¬ passing a ∧ ¬ long_exception a ∧ ¬ positive_score a.
Proof.
  rewrite pass_fail_exception_first_true.
  rewrite <- passing_condition_true, <- exception_condition_true,
    <- breaking_condition_true.
  repeat case_decide; intuition congruence.
Qed.

(** X22. The facts left without a status are exactly those with an
    exception text that is null or at most one character long and a score
    that is null, negative, or zero with a one-character exception text;
    in particular every fact with a positive score has a status, EXCEPTION
    or BREAKING. *)
Theorem unclassified_facts (a : RuleOutput) :
  (pass_fail_exception a = None ↔
     (exception a = None ∨ ∃ e, exception a = Some e ∧ (String.length e ≤ 1)%nat)
     ∧ (score a = None ∨ (∃ s, score a = Some s ∧ s < 0)
        ∨ (score a = Some 0 ∧ ∃ e, exception a = Some e ∧ String.length e = 1%nat)))
  ∧ (positive_score a →
     pass_fail_exception a = Some EXCEPTION ∨ pass_fail_exception a = Some BREAKING).
Proof.
  split.
  - rewrite pass_fail_exception_none.
    unfold passing, long_exception, positive_score.
    destruct a as [[s|] [e|]]; simpl;
      rewrite ?some_such_that, ?none_such_that, ?some_is, ?some_is_none,
        ?none_is_some, ?none_is_none.
    + assert (e = "" ↔ String.length e = 0%nat) as -> by (by destruct e).
      lia.
    + lia.
    + assert (e = "" ↔ String.length e = 0%nat) as -> by (by destruct e).
      lia.
    + lia.
  - intros Hpositive. rewrite pass_fail_exception_first_true.
    destruct (decide (passing_condition a = Some true)) as [Hpass|_].
    { apply passing_condition_true in Hpass as [Hzero _].
      destruct Hpositive as (s & Hs & Hpos). rewrite Hs in Hzero.
      injection Hzero as ->. lia. }
    destruct (decide (exception_condition a = Some true)); [by left|].
    apply breaking_condition_true in Hpositive.
    destruct (decide (breaking_condition a = Some true)); [by right|done].
Qed.

(** ** Witnesses of the connection discipline *)

(** The default parse request for the dataset [ds]. *)
Lemma parse_dataset_one_connection_example :
  one_connection
    (trace_of (run (parse_dataset decimal_int sample_now
                      (with_opt_owl [ {| row_dataset := "ds"; row_linkid := Some "A~|B" |} ]
                         (quiet_db 0))
                      {[ "dataset" := "ds" ]}))) = true.
Proof.
  apply (parse_dataset_one_connection decimal_int sample_now
           (with_opt_owl [ {| row_dataset := "ds"; row_linkid := Some "A~|B" |} ]
              (quiet_db 0))
           {[ "dataset" := "ds" ]}).
  reflexivity.
Defined.

(** The default health request with [dimensions] failing. *)
Lemma get_dashboard_health_one_connection_example :
  one_connection
    (trace_of (run (get_dashboard_health decimal_int
                      (failing_aggregate_db "dimensions") ∅))) = true.
Proof.
  apply (get_dashboard_health_one_connection decimal_int
           (failing_aggregate_db "dimensions") ∅).
  reflexivity.
Defined.

(** The schema request with the first column query failing. *)
Lemma get_schema_one_connection_example :
  one_connection (trace_of (run (get_schema (failing_schema_db "dataset_scan")))) = true.
Proof.
  apply (get_schema_one_connection (failing_schema_db "dataset_scan")).
  reflexivity.
Defined.
